(** * Blogicum: the request handlers of [blog/views.py] and the forms of
    [blog/forms.py], embedded over an explicit relational store.

    The handlers are thin glue over the web framework: object lookup,
    form validation, pagination and the login gate.  The framework's part
    is modelled in the first half of the file (module by module, under the
    framework's own names), the repository's handlers in the second half,
    and the properties of the handlers are proved at the end.  The handlers
    embedded are the listings, the post detail, creation, update and
    deletion, the comment creation, update and deletion and the password
    change. *)

From Stdlib Require Import ZArith String Ascii.
From stdpp Require Import base option list sorting gmap strings.

Local Open Scope string_scope.
Local Open Scope Z_scope.

(** ** Exceptions and the handler monad *)

(** The exceptions a handler can leave unhandled.  [Http404] becomes the
    "not found" page; every other one is a server error. *)
Inductive Exn : Type :=
  | Http404
  | MultipleObjectsReturned
  | RelatedObjectDoesNotExist
  | IntegrityError
  | KeyError
  | ValueError
  | EmptyPage
  | PageNotAnInteger.

Inductive Result (A : Type) : Type :=
  | Return (a : A)
  | Raise (e : Exn).
Arguments Return {A} a.
Arguments Raise {A} e.

(** ** The data model *)

(** The entity declarations ([blog/models.py]) are not part of the sources:
    the records below carry the fields the spec lists for each entity,
    under the names the handlers and the forms use for them.  A reference
    is the primary key of the row referred to. *)

(** A stored password is the hash of the raw one, and the session keeps a
    keyed hash of it. *)
Inductive PasswordHash : Type := make_password (raw_password : string).
Inductive AuthHash : Type := salted_hmac (h : PasswordHash).

#[global] Instance PasswordHash_eq_dec : EqDecision PasswordHash.
Proof. solve_decision. Defined.
#[global] Instance AuthHash_eq_dec : EqDecision AuthHash.
Proof. solve_decision. Defined.

Module User.
(** Modelled from the spec: the account entity of [django.contrib.auth],
    "username, password, profile fields", of which the handlers read the
    user name and write the password. *)
Record t : Type := Build { username : string; password : PasswordHash }.

Definition set_password (u : t) (raw_password : string) : t :=
  {| username := username u; password := make_password raw_password |}.

Definition get_session_auth_hash (u : t) : AuthHash :=
  salted_hmac (password u).
End User.

Module Category.
(** Modelled from the spec: the category entity, "slug, published flag". *)
Record t : Type := Build { slug : string; is_published : bool }.
End Category.

Module Post.
(** Modelled from the spec: the post entity, "title, body, publish
    timestamp, published flag, author reference, category reference". *)
Record t : Type := Build {
  title : string;
  body : string;
  pub_date : Z;
  is_published : bool;
  author : nat;
  category : nat
}.
End Post.

Module Comment.
(** Modelled from the spec: the comment entity, "text, author reference,
    post reference, creation timestamp". *)
Record t : Type := Build {
  text : string;
  author : nat;
  post : nat;
  created_at : Z
}.

Definition set_text (c : t) (s : string) : t :=
  {| text := s; author := author c; post := post c;
     created_at := created_at c |}.
End Comment.

(** An object is a row together with its primary key. *)
Definition Obj (A : Type) : Type := (nat * A)%type.
Definition pk {A} (o : Obj A) : nat := o.1.
Definition row {A} (o : Obj A) : A := o.2.

(** The session of the current request: the two keys the authentication
    layer keeps in it. *)
Record Session : Type := {
  SESSION_KEY : option nat;
  HASH_SESSION_KEY : option AuthHash
}.

(** The state the handlers run against: the four tables, the session of
    the request and the clock read by [timezone.now()]. *)
Record World : Type := {
  users : gmap nat User.t;
  categories : gmap nat Category.t;
  posts : gmap nat Post.t;
  comments : gmap nat Comment.t;
  session : Session;
  now : Z
}.

Definition set_users (f : gmap nat User.t → gmap nat User.t) (w : World) : World :=
  {| users := f (users w); categories := categories w; posts := posts w;
     comments := comments w; session := session w; now := now w |}.
Definition set_posts (f : gmap nat Post.t → gmap nat Post.t) (w : World) : World :=
  {| users := users w; categories := categories w; posts := f (posts w);
     comments := comments w; session := session w; now := now w |}.
Definition set_comments (f : gmap nat Comment.t → gmap nat Comment.t) (w : World) : World :=
  {| users := users w; categories := categories w; posts := posts w;
     comments := f (comments w); session := session w; now := now w |}.
Definition set_session (f : Session → Session) (w : World) : World :=
  {| users := users w; categories := categories w; posts := posts w;
     comments := comments w; session := f (session w); now := now w |}.

(** A handler is a computation over the world that returns a value or
    leaves an exception; writes made before an exception stay (every save
    is committed at once). *)
Definition M (A : Type) : Type := World → Result A * World.

#[global] Instance M_ret : MRet M := λ A a w, (Return a, w).
#[global] Instance M_bind : MBind M := λ A B f m w,
  match m w with
  | (Return a, w') => f a w'
  | (Raise e, w') => (Raise e, w')
  end.

Definition raise {A} (e : Exn) : M A := λ w, (Raise e, w).
Definition get_world : M World := λ w, (Return w, w).
Definition modify_world (f : World → World) : M unit := λ w, (Return tt, f w).
Definition lift {A} (r : Result A) : M A := λ w, (r, w).


(** ** Requests and responses *)

(** [user] is [None] for the anonymous viewer; [GET] and [POST] are the
    query string and the submitted form. *)
Record Request : Type := {
  user : option (Obj User.t);
  method : string;
  GET : gmap string string;
  POST : gmap string string
}.

Definition is_authenticated (viewer : option (Obj User.t)) : bool :=
  match viewer with Some _ => true | None => false end.

(** [AnonymousUser.username] is the empty string. *)
Definition username_of (viewer : option (Obj User.t)) : string :=
  match viewer with Some u => User.username (row u) | None => "" end.

(** [obj.author == request.user]: model instances are equal when their
    primary keys are; the anonymous viewer equals no user. *)
Definition is_user (viewer : option (Obj User.t)) (author_pk : nat) : bool :=
  match viewer with Some u => bool_decide (pk u = author_pk) | None => false end.

(** The named routes the handlers redirect to. *)
Inductive Route : Type :=
  | blog_profile (username : string)
  | blog_post_detail (post_id : nat)
  | blog_password_change_done
  | LOGIN_URL.

(** ** Form fields *)

Inductive FieldValue : Type :=
  | VStr (s : string)
  | VDateTime (t : Z)
  | VBool (b : bool)
  | VRef (pk : nat).

#[global] Instance FieldValue_eq_dec : EqDecision FieldValue.
Proof. solve_decision. Defined.

(** Python truthiness of [cleaned_data.get(name)]. *)
Definition truthy (v : option FieldValue) : bool :=
  match v with
  | None => false
  | Some (VStr s) => negb (String.eqb s "")
  | Some (VBool b) => b
  | Some (VDateTime _) => true
  | Some (VRef _) => true
  end.

(** Text is kept as its UTF-8 bytes.  [str.strip()] removes the leading
    and trailing characters that Python counts as whitespace: the one-byte
    ones U+0009 to U+000D, U+001C to U+001F and U+0020; the two-byte ones
    U+0085 and U+00A0; the three-byte ones U+1680, U+2000 to U+200A, U+2028,
    U+2029, U+202F, U+205F and U+3000. *)
Definition is_space (c : ascii) : bool :=
  let n := nat_of_ascii c in
  ((9 <=? n)%nat && (n <=? 13)%nat) || ((28 <=? n)%nat && (n <=? 32)%nat).

Definition is_space2 (c1 c2 : ascii) : bool :=
  let b := nat_of_ascii c2 in
  (nat_of_ascii c1 =? 194)%nat && ((b =? 133)%nat || (b =? 160)%nat).

Definition is_space3 (c1 c2 c3 : ascii) : bool :=
  let a := nat_of_ascii c1 in
  let b := nat_of_ascii c2 in
  let c := nat_of_ascii c3 in
  ((a =? 225)%nat && (b =? 154)%nat && (c =? 128)%nat)
  || ((a =? 226)%nat && (b =? 128)%nat
      && (((128 <=? c)%nat && (c <=? 138)%nat)
          || (c =? 168)%nat || (c =? 169)%nat || (c =? 175)%nat))
  || ((a =? 226)%nat && (b =? 129)%nat && (c =? 159)%nat)
  || ((a =? 227)%nat && (b =? 128)%nat && (c =? 128)%nat).

Fixpoint lstrip (s : string) : string :=
  match s with
  | EmptyString => EmptyString
  | String c1 s1 =>
      if is_space c1 then lstrip s1
      else
        match s1 with
        | EmptyString => s
        | String c2 s2 =>
            if is_space2 c1 c2 then lstrip s2
            else
              match s2 with
              | EmptyString => s
              | String c3 s3 => if is_space3 c1 c2 c3 then lstrip s3 else s
              end
        end
  end.

Fixpoint string_rev_app (s acc : string) : string :=
  match s with
  | String c s' => string_rev_app s' (String c acc)
  | EmptyString => acc
  end.

(** The same from the end: on the bytes taken last to first, a character
    of several bytes shows its last byte first. *)
Fixpoint lstrip_reversed (s : string) : string :=
  match s with
  | EmptyString => EmptyString
  | String c1 s1 =>
      if is_space c1 then lstrip_reversed s1
      else
        match s1 with
        | EmptyString => s
        | String c2 s2 =>
            if is_space2 c2 c1 then lstrip_reversed s2
            else
              match s2 with
              | EmptyString => s
              | String c3 s3 =>
                  if is_space3 c3 c2 c1 then lstrip_reversed s3 else s
              end
        end
  end.

Definition rstrip (s : string) : string :=
  string_rev_app (lstrip_reversed (string_rev_app s "")) "".

Definition strip (s : string) : string := rstrip (lstrip s).

Definition lower_char (c : ascii) : ascii :=
  let n := nat_of_ascii c in
  if ((65 <=? n)%nat && (n <=? 90)%nat) then ascii_of_nat (n + 32) else c.

Fixpoint lower (s : string) : string :=
  match s with
  | String c s' => String (lower_char c) (lower s')
  | EmptyString => EmptyString
  end.

Fixpoint has_null (s : string) : bool :=
  match s with
  | String c s' => (nat_of_ascii c =? 0)%nat || has_null s'
  | EmptyString => false
  end.

(** A form field: [clean] takes the raw value of the submitted data
    ([None] when the key is absent) and gives the cleaned value or the
    message of the validation error. *)
Record Field : Type := { clean : World → option string → string + FieldValue }.

(** [forms.CharField()] with the defaults ([required=True], [strip=True]):
    [to_python] strips with [str.strip()], [validate] refuses the empty
    value, the default validator refuses null characters. *)
Definition CharField_clean (raw : option string) : string + FieldValue :=
  let value := match raw with None => "" | Some v => strip v end in
  if String.eqb value "" then inl "This field is required."
  else if has_null value then inl "Null characters are not allowed."
  else inr (VStr value).

Definition CharField : Field := {| clean := λ _, CharField_clean |}.

(** [forms.BooleanField(required=False)] behind a checkbox. *)
Definition BooleanField_clean (raw : option string) : string + FieldValue :=
  match raw with
  | None => inr (VBool false)
  | Some v =>
      if String.eqb (lower v) "true" then inr (VBool true)
      else if String.eqb (lower v) "false" then inr (VBool false)
      else inr (VBool (negb (String.eqb v "")))
  end.

Definition BooleanField : Field := {| clean := λ _, BooleanField_clean |}.

(** ** Forms *)

(** A form after [full_clean]: its errors by field name (["__all__"] for
    the errors of the form's own [clean]) and the cleaned data.  An unbound
    form has neither.  [instance] holds the attributes of the model
    instance of a model form. *)
Record Form : Type := {
  is_bound : bool;
  instance : gmap string FieldValue;
  errors : list (string * string);
  cleaned_data : gmap string FieldValue
}.

Definition unbound_form (instance : gmap string FieldValue) : Form :=
  {| is_bound := false; instance := instance; errors := [];
     cleaned_data := ∅ |}.

Definition is_valid (form : Form) : bool :=
  is_bound form && bool_decide (errors form = []).

(** [BaseForm._clean_fields]: every declared field, in order, reads its
    own key of the data and nothing else. *)
Fixpoint _clean_fields (w : World) (fields : list (string * Field))
    (data : gmap string string)
    : list (string * string) * gmap string FieldValue :=
  match fields with
  | [] => ([], ∅)
  | (name, field) :: rest =>
      let '(errs, cleaned) := _clean_fields w rest data in
      match clean field w (data !! name) with
      | inl msg => ((name, msg) :: errs, cleaned)
      | inr value => (errs, <[name := value]> cleaned)
      end
  end.

(** [full_clean]: the fields, then the form's own [clean], which runs also
    when a field has failed and sees the data cleaned so far. *)
Definition full_clean (w : World) (fields : list (string * Field))
    (form_clean : gmap string FieldValue → option string)
    (data : gmap string string) : Form :=
  let '(errs, cleaned) := _clean_fields w fields data in
  let errs' :=
    match form_clean cleaned with
    | Some msg => (errs ++ [("__all__", msg)])%list
    | None => errs
    end in
  {| is_bound := true; instance := ∅; errors := errs';
     cleaned_data := cleaned |}.

(** [fields_for_model]: the model's editable fields, restricted to
    [fields] when given and without those of [exclude]. *)
Definition field_selected (fields : option (list string))
    (exclude : list string) (name : string) : bool :=
  match fields with
  | Some names => bool_decide (name ∈ names)
  | None => true
  end && bool_decide (name ∉ exclude).

Definition fields_for_model (model_fields : list (string * Field))
    (fields : option (list string)) (exclude : list string)
    : list (string * Field) :=
  filter (λ f, field_selected fields exclude f.1) model_fields.

(** ** Query sets *)

(** A query set is the list of the objects it selects.  [all] lists a
    table, [get_by_pk] is [filter(pk=...)], which selects at most one row. *)
Definition all {A} (table : gmap nat A) : list (Obj A) := map_to_list table.

Definition get_by_pk {A} (table : gmap nat A) (k : nat) : list (Obj A) :=
  match table !! k with Some x => [(k, x)] | None => [] end.

(** [get_object_or_404]: [QuerySet.get] with [DoesNotExist] turned into
    [Http404]; more than one match is left to propagate. *)
Definition get_object_or_404 {A} (queryset : list A) : Result A :=
  match queryset with
  | [] => Raise Http404
  | [obj] => Return obj
  | _ => Raise MultipleObjectsReturned
  end.

(** [obj.category]: following the reference fetches the row. *)
Definition related_category (w : World) (p : Post.t) : Result Category.t :=
  match categories w !! Post.category p with
  | Some c => Return c
  | None => Raise RelatedObjectDoesNotExist
  end.

(** [category__is_published=True] in a filter is a join: a post whose
    category row is missing is not selected. *)
Definition category__is_published (w : World) (p : Post.t) : bool :=
  match categories w !! Post.category p with
  | Some c => Category.is_published c
  | None => false
  end.

(** [User] filtered by [username=...], [Category] filtered by
    [slug=..., is_published=True], and [user.posts.all()]. *)
Definition users_by_username (w : World) (username : string)
    : list (Obj User.t) :=
  filter (λ u, User.username (row u) = username) (all (users w)).

Definition published_categories_by_slug (w : World) (category_slug : string)
    : list (Obj Category.t) :=
  filter (λ c, Category.slug (row c) = category_slug
               ∧ Category.is_published (row c) = true)
         (all (categories w)).

Definition posts_of_author (w : World) (author_pk : nat) : list (Obj Post.t) :=
  filter (λ p, Post.author (row p) = author_pk) (all (posts w)).

(** [order_by('-pub_date')]. *)
Definition pub_date_desc (a b : Obj Post.t) : Prop :=
  (Post.pub_date (row b) ≤ Post.pub_date (row a))%Z.

#[global] Instance pub_date_desc_dec : RelDecision pub_date_desc.
Proof. intros a b. unfold pub_date_desc. apply _. Defined.

#[global] Instance pub_date_desc_total : Total pub_date_desc.
Proof. intros a b. unfold pub_date_desc. lia. Qed.

#[global] Instance pub_date_desc_trans : Transitive pub_date_desc.
Proof. intros a b c. unfold pub_date_desc. lia. Qed.

Definition order_by_pub_date_desc (qs : list (Obj Post.t)) : list (Obj Post.t) :=
  merge_sort pub_date_desc qs.

(** The next primary key of a table. *)
Definition next_pk {A} (table : gmap nat A) : nat :=
  S (max_list (map_to_list table).*1).

(** ** Pagination: [django.core.paginator] *)

Record Paginator : Type := {
  object_list : list (Obj Post.t);
  per_page : Z
}.

Module Page.
Record t : Type := Build {
  object_list : list (Obj Post.t);
  number : Z;
  paginator : Paginator
}.
End Page.

(** A page number as the handler passes it: [None], a string of the query,
    or an integer. *)
Inductive PyNumber : Type :=
  | PyNone
  | PyStr (s : string)
  | PyInt (n : Z).

Definition count (p : Paginator) : Z := Z.of_nat (length (object_list p)).

(** [ceil(hits / per_page)] with [hits = max(1, count - orphans)], no
    orphans, an empty first page allowed. *)
Definition num_pages (p : Paginator) : Z :=
  let hits := Z.max 1 (count p - 0) in
  - ((- hits) `div` per_page p).

(** [object_list[bottom:top]] for [0 <= bottom]. *)
Definition slice {A} (l : list A) (bottom top : Z) : list A :=
  take (Z.to_nat (top - bottom)) (drop (Z.to_nat bottom) l).

(** ** Rendering *)

Inductive Value : Type :=
  | VUser (u : Obj User.t)
  | VPost (p : Obj Post.t)
  | VCategory (c : Obj Category.t)
  | VComment (c : Obj Comment.t)
  | VComments (cs : list (Obj Comment.t))
  | VPage (p : Page.t)
  | VForm (f : Form)
  | VTrue.

Inductive HttpResponse : Type :=
  | render (template_name : string) (context : list (string * Value))
  | redirect (to : Route)
  | HttpResponseForbidden (content : string)
  | HttpResponseNotAllowed
  | HttpResponseOptions.

(** [View.dispatch] of the class-based views: the handler is chosen by the
    lower-cased method; [head] falls back on [get], [put] of a form view
    is [post], and a method without a handler is not allowed. *)
Definition View_dispatch {A} (method : string)
    (get : option A) (post : option A) (options not_allowed : A) : A :=
  let name := lower method in
  if String.eqb name "get" || String.eqb name "head"
  then default not_allowed get
  else if String.eqb name "post" || String.eqb name "put"
  then default not_allowed post
  else if String.eqb name "options" then options
  else not_allowed.

(** ** Authentication: [django.contrib.auth] *)


(** [update_session_auth_hash(request, user)]: when [user] is the viewer of
    the request, the session takes the hash of the new password. *)
Definition update_session_auth_hash (viewer : option (Obj User.t))
    (u : Obj User.t) : M unit :=
  if is_user viewer (pk u) then
    modify_world (set_session (λ s,
      {| SESSION_KEY := SESSION_KEY s;
         HASH_SESSION_KEY := Some (User.get_session_auth_hash (row u)) |}))
  else mret tt.

(** [user.save()]. *)
Definition save_user (u : Obj User.t) : M unit :=
  modify_world (set_users (λ t, <[pk u := row u]> t)).

(** [@login_required] and [LoginRequiredMixin]: the anonymous viewer is
    sent to the login page and the handler does not run. *)
Definition login_required (view : Request → M HttpResponse)
    (request : Request) : M HttpResponse :=
  if is_authenticated (user request) then view request
  else mret (redirect LOGIN_URL).

(** ** Model forms *)

(** A model form: the cleaned fields are written onto the instance
    ([construct_instance]), the attributes not named by a field stay. *)
Definition ModelForm (w : World) (fields : list (string * Field))
    (data : option (gmap string string))
    (inst : gmap string FieldValue) : Form :=
  match data with
  | None => unbound_form inst
  | Some d =>
      let form := full_clean w fields (λ _, None) d in
      {| is_bound := true; instance := cleaned_data form ∪ inst;
         errors := errors form; cleaned_data := cleaned_data form |}
  end.

Definition set_instance (inst : gmap string FieldValue) (form : Form) : Form :=
  {| is_bound := is_bound form; instance := inst; errors := errors form;
     cleaned_data := cleaned_data form |}.

(** The row an instance is saved as; an instance that lacks a column
    cannot be saved. *)
Definition Post_of_attrs (a : gmap string FieldValue) : option Post.t :=
  match a !! "title", a !! "body", a !! "pub_date", a !! "is_published",
        a !! "author", a !! "category" with
  | Some (VStr t), Some (VStr b), Some (VDateTime d), Some (VBool p),
    Some (VRef au), Some (VRef c) =>
      Some {| Post.title := t; Post.body := b; Post.pub_date := d;
              Post.is_published := p; Post.author := au; Post.category := c |}
  | _, _, _, _, _, _ => None
  end.

Definition Comment_to_attrs (c : Comment.t) : gmap string FieldValue :=
  <["text" := VStr (Comment.text c)]>
  (<["author" := VRef (Comment.author c)]>
  (<["post" := VRef (Comment.post c)]>
  (<["created_at" := VDateTime (Comment.created_at c)]> ∅))).

Definition Comment_of_attrs (a : gmap string FieldValue) : option Comment.t :=
  match a !! "text", a !! "author", a !! "post", a !! "created_at" with
  | Some (VStr t), Some (VRef au), Some (VRef p), Some (VDateTime d) =>
      Some {| Comment.text := t; Comment.author := au; Comment.post := p;
              Comment.created_at := d |}
  | _, _, _, _ => None
  end.

(** [form.save()] of a new post: the instance is inserted under the next
    primary key. *)
Definition save_new_post (form : Form) : M (Obj Post.t) :=
  if negb (bool_decide (errors form = [])) then raise ValueError
  else
    match Post_of_attrs (instance form) with
    | None => raise IntegrityError
    | Some p =>
        w ← get_world;
        let k := next_pk (posts w) in
        modify_world (set_posts (λ t, <[k := p]> t));;
        mret (k, p)
    end.

(** [form.save()] of an existing comment: the row is written back under
    its primary key. *)
Definition save_comment (k : nat) (form : Form) : M (Obj Comment.t) :=
  if negb (bool_decide (errors form = [])) then raise ValueError
  else
    match Comment_of_attrs (instance form) with
    | None => raise IntegrityError
    | Some c =>
        modify_world (set_comments (λ t, <[k := c]> t));;
        mret (k, c)
    end.

(** Modelled from the spec: the comment entity has a creation timestamp,
    which neither the form nor the handler sets; the store sets it when the
    row is inserted.  [comment.save()] of a new comment inserts the row
    under the next primary key. *)
Definition save_new_comment (inst : gmap string FieldValue) : M (Obj Comment.t) :=
  w ← get_world;
  match Comment_of_attrs (<["created_at" := VDateTime (now w)]> inst) with
  | None => raise IntegrityError
  | Some c =>
      let k := next_pk (comments w) in
      modify_world (set_comments (λ t, <[k := c]> t));;
      mret (k, c)
  end.

(** ** blog/forms.py *)

Definition PasswordChangeForm_fields : list (string * Field) :=
  [("password1", CharField); ("password2", CharField)].

Definition PasswordChangeForm_clean (cleaned_data : gmap string FieldValue)
    : option string :=
  let password1 := cleaned_data !! "password1" in
  let password2 := cleaned_data !! "password2" in
  if truthy password1 && truthy password2 && bool_decide (password1 ≠ password2)
  then Some "Passwords don't match"
  else None.

Definition PasswordChangeForm (w : World) (data : option (gmap string string))
    : Form :=
  match data with
  | None => unbound_form ∅
  | Some d => full_clean w PasswordChangeForm_fields PasswordChangeForm_clean d
  end.

(** ** blog/views.py *)

Definition LIMIT_POSTS : Z := 10.

Definition page_param (request : Request) : PyNumber :=
  match GET request !! "page" with
  | Some s => PyStr s
  | None => PyNone
  end.

Section Blog.

(** What the handlers take from outside the repository: Python's [int] on
    a string ([None] for [ValueError]), the date parser of the date field,
    the generic edit view behind [PostUpdateView], and the action the
    comment entity declares for the deletion of its post. *)
Variable py_int : string → option Z.
Variable parse_datetime : string → option Z.
Variable UpdateView_dispatch : Request → nat → M HttpResponse.
Variable Comment_post_on_delete : nat → gmap nat Comment.t → gmap nat Comment.t.

Definition int (x : PyNumber) : option Z :=
  match x with
  | PyNone => None
  | PyStr s => py_int s
  | PyInt n => Some n
  end.

Definition validate_number (p : Paginator) (number : PyNumber) : Result Z :=
  match int number with
  | None => Raise PageNotAnInteger
  | Some n =>
      if n <? 1 then Raise EmptyPage
      else if num_pages p <? n then Raise EmptyPage
      else Return n
  end.

Definition page (p : Paginator) (number : PyNumber) : Result Page.t :=
  match validate_number p number with
  | Raise e => Raise e
  | Return number =>
      let bottom := (number - 1) * per_page p in
      let top := bottom + per_page p in
      let top := if count p <=? top + 0 then count p else top in
      Return {| Page.object_list := slice (object_list p) bottom top;
                Page.number := number; Page.paginator := p |}
  end.

Definition get_page (p : Paginator) (number : PyNumber) : Result Page.t :=
  match validate_number p number with
  | Return n => page p (PyInt n)
  | Raise PageNotAnInteger => page p (PyInt 1)
  | Raise EmptyPage => page p (PyInt (num_pages p))
  | Raise e => Raise e
  end.

(** The form fields of the references and of the date. *)
Definition ModelChoiceField {A} (table : World → gmap nat A) : Field :=
  {| clean := λ w raw,
       match raw with
       | None => inl "This field is required."
       | Some v =>
           if String.eqb v "" then inl "This field is required."
           else match py_int v with
                | Some k =>
                    if (0 <=? k) && bool_decide (is_Some (table w !! Z.to_nat k))
                    then inr (VRef (Z.to_nat k))
                    else inl "Select a valid choice."
                | None => inl "Select a valid choice."
                end
       end |}.

Definition DateTimeField : Field :=
  {| clean := λ _ raw,
       match raw with
       | None => inl "This field is required."
       | Some v =>
           if String.eqb v "" then inl "This field is required."
           else match parse_datetime v with
                | Some t => inr (VDateTime t)
                | None => inl "Enter a valid date/time."
                end
       end |}.

(** Modelled from the spec: the editable fields of the post entity, one
    form field each: title, body, publish timestamp, published flag, author
    reference, category reference. *)
Definition Post_fields : list (string * Field) :=
  [("title", CharField); ("body", CharField); ("pub_date", DateTimeField);
   ("is_published", BooleanField); ("author", ModelChoiceField users);
   ("category", ModelChoiceField categories)].

(** Modelled from the spec: the editable fields of the comment entity:
    text, author reference, post reference (the creation timestamp is set
    by the store). *)
Definition Comment_fields : list (string * Field) :=
  [("text", CharField); ("author", ModelChoiceField users);
   ("post", ModelChoiceField posts)].

(** [class CommentForm]: [fields = ['text']]. *)
Definition CommentForm_fields : list (string * Field) :=
  fields_for_model Comment_fields (Some ["text"]) [].

Definition CommentForm (w : World) (data : option (gmap string string))
    (inst : gmap string FieldValue) : Form :=
  ModelForm w CommentForm_fields data inst.

(** [class PostForm]: [exclude = ['author']]. *)
Definition PostForm_fields : list (string * Field) :=
  fields_for_model Post_fields None ["author"].

Definition PostForm (w : World) (data : option (gmap string string))
    (inst : gmap string FieldValue) : Form :=
  ModelForm w PostForm_fields data inst.

(** The filter shared by the listings:
    [is_published=True, category__is_published=True, pub_date__lte=now]. *)
Definition publicly_visible (w : World) (current_time : Z) (p : Obj Post.t) : bool :=
  Post.is_published (row p) && category__is_published w (row p)
  && (Post.pub_date (row p) <=? current_time).

Definition paginate (posts : list (Obj Post.t)) (request : Request)
    : Result Page.t :=
  let paginator := {| object_list := posts; per_page := LIMIT_POSTS |} in
  let page_number := page_param request in
  get_page paginator page_number.

Definition profile_view (request : Request) (username : string) : M HttpResponse :=
  w ← get_world;
  profile ← lift (get_object_or_404 (users_by_username w username));
  let posts := posts_of_author w (pk profile) in
  let current_time := now w in
  let posts :=
    if bool_decide (username_of (user request) ≠ username)
    then filter (λ p, publicly_visible w current_time p) posts
    else posts in
  let posts := order_by_pub_date_desc posts in
  page_obj ← lift (paginate posts request);
  let context := [("profile", VUser profile); ("page_obj", VPage page_obj)] in
  mret (render "blog/profile.html" context).

Definition password_change_view (request : Request) (username : string)
    : M HttpResponse :=
  login_required (λ request,
    w ← get_world;
    let viewer := user request in
    if String.eqb (method request) "POST" then
      let form := PasswordChangeForm w (Some (POST request)) in
      if is_valid form then
        match viewer, cleaned_data form !! "password1" with
        | Some u, Some (VStr password) =>
            let u := (pk u, User.set_password (row u) password) in
            save_user u;;
            update_session_auth_hash viewer u;;
            mret (redirect blog_password_change_done)
        | _, _ => raise KeyError
        end
      else
        mret (render "blog/password_change_form.html" [("form", VForm form)])
    else
      let form := PasswordChangeForm w None in
      mret (render "blog/password_change_form.html" [("form", VForm form)])
  ) request.

(** [class PostCreateView(LoginRequiredMixin, PostMixin, CreateView)]. *)
Definition PostCreateView_get_success_url (request : Request) : Route :=
  blog_profile (username_of (user request)).

Definition PostCreateView_form_valid (request : Request) (form : Form)
    : M HttpResponse :=
  match user request with
  | None => raise ValueError
  | Some u =>
      (* form.instance.author = self.request.user *)
      let form := set_instance (<["author" := VRef (pk u)]> (instance form)) form in
      (* super().form_valid(form) *)
      save_new_post form;;
      mret (redirect (PostCreateView_get_success_url request))
  end.

Definition PostCreateView_get (request : Request) : M HttpResponse :=
  w ← get_world;
  mret (render "blog/create.html" [("form", VForm (PostForm w None ∅))]).

Definition PostCreateView_post (request : Request) : M HttpResponse :=
  w ← get_world;
  let form := PostForm w (Some (POST request)) ∅ in
  if is_valid form then PostCreateView_form_valid request form
  else mret (render "blog/create.html" [("form", VForm form)]).

Definition PostCreateView (request : Request) : M HttpResponse :=
  login_required (λ request,
    View_dispatch (method request)
      (Some (PostCreateView_get request)) (Some (PostCreateView_post request))
      (mret HttpResponseOptions) (mret HttpResponseNotAllowed)
  ) request.

(** [class PostUpdateView(LoginRequiredMixin, PostMixin, UpdateView)]: its
    own [dispatch] runs before the login gate of the mixin. *)
Definition PostUpdateView_get_object (post_id : nat) : M (Obj Post.t) :=
  w ← get_world;
  lift (get_object_or_404 (get_by_pk (posts w) post_id)).

Definition PostUpdateView_dispatch (request : Request) (post_id : nat)
    : M HttpResponse :=
  obj ← PostUpdateView_get_object post_id;
  if negb (is_user (user request) (Post.author (row obj)))
  then mret (redirect (blog_post_detail post_id))
  else login_required (λ request, UpdateView_dispatch request post_id) request.

(** [Model.delete()] of a post, with the action the comments declare. *)
Definition delete_post_row (k : nat) : M unit :=
  modify_world (λ w,
    set_comments (Comment_post_on_delete k) (set_posts (λ t, delete k t) w)).

Definition delete_post (request : Request) (post_id : nat) : M HttpResponse :=
  login_required (λ request,
    w ← get_world;
    let template_name := "blog/create.html" in
    delete_post ← lift (get_object_or_404
      (filter (λ p, is_user (user request) (Post.author (row p)))
              (get_by_pk (posts w) post_id)));
    if negb (String.eqb (method request) "POST") then
      let context := [("post", VPost delete_post); ("is_delete", VTrue)] in
      mret (render template_name context)
    else
      delete_post_row (pk delete_post);;
      mret (redirect (blog_profile (username_of (user request))))
  ) request.

(** [class PostDetailView(DetailView)]. *)
Definition PostDetailView_get_object (request : Request) (post_id : nat)
    : M (Obj Post.t) :=
  w ← get_world;
  obj ← lift (get_object_or_404 (get_by_pk (posts w) post_id));
  if negb (is_user (user request) (Post.author (row obj))) then
    if negb (Post.is_published (row obj)) then raise Http404
    else
      category ← lift (related_category w (row obj));
      if negb (Category.is_published category) then raise Http404
      else mret obj
  else mret obj.

Definition PostDetailView_get_context_data (obj : Obj Post.t)
    : M (list (string * Value)) :=
  w ← get_world;
  mret [("object", VPost obj); ("post", VPost obj);
        ("form", VForm (CommentForm w None ∅));
        ("comments", VComments
           (filter (λ c, Comment.post (row c) = pk obj) (all (comments w))))].

Definition PostDetailView_get (request : Request) (post_id : nat)
    : M HttpResponse :=
  obj ← PostDetailView_get_object request post_id;
  context ← PostDetailView_get_context_data obj;
  mret (render "blog/detail.html" context).

Definition PostDetailView (request : Request) (post_id : nat) : M HttpResponse :=
  View_dispatch (method request)
    (Some (PostDetailView_get request post_id)) None
    (mret HttpResponseOptions) (mret HttpResponseNotAllowed).

Definition index (request : Request) : M HttpResponse :=
  w ← get_world;
  let template := "blog/index.html" in
  let current_time := now w in
  let posts := order_by_pub_date_desc
    (filter (λ p, publicly_visible w current_time p) (all (posts w))) in
  page_obj ← lift (paginate posts request);
  let context := [("page_obj", VPage page_obj)] in
  mret (render template context).

Definition category_posts (request : Request) (category_slug : string)
    : M HttpResponse :=
  w ← get_world;
  let template := "blog/category.html" in
  let current_time := now w in
  category ← lift (get_object_or_404
                     (published_categories_by_slug w category_slug));
  let post_list := order_by_pub_date_desc
    (filter (λ p, Post.is_published (row p) = true
                  ∧ (Post.pub_date (row p) ≤ current_time)%Z)
       (filter (λ p, Post.category (row p) = pk category) (all (posts w)))) in
  page_obj ← lift (paginate post_list request);
  let context := [("category", VCategory category); ("page_obj", VPage page_obj)] in
  mret (render template context).

Definition edit_comment (request : Request) (post_id comment_id : nat)
    : M HttpResponse :=
  login_required (λ request,
    w ← get_world;
    comment ← lift (get_object_or_404 (get_by_pk (comments w) comment_id));
    if negb (is_user (user request) (Comment.author (row comment))) then
      mret (HttpResponseForbidden
              "У вас нет прав для редактирования этого комментария.")
    else
      let inst := Comment_to_attrs (row comment) in
      if String.eqb (method request) "POST" then
        let form := CommentForm w (Some (POST request)) inst in
        if is_valid form then
          save_comment (pk comment) form;;
          mret (redirect (blog_post_detail post_id))
        else
          mret (render "blog/comment.html"
                  [("form", VForm form); ("comment", VComment comment);
                   ("is_edit", VTrue)])
      else
        let form := CommentForm w None inst in
        mret (render "blog/comment.html"
                [("form", VForm form); ("comment", VComment comment);
                 ("is_edit", VTrue)])
  ) request.

Definition delete_comment (request : Request) (post_id comment_id : nat)
    : M HttpResponse :=
  login_required (λ request,
    w ← get_world;
    comment ← lift (get_object_or_404 (get_by_pk (comments w) comment_id));
    if negb (is_user (user request) (Comment.author (row comment))) then
      mret (HttpResponseForbidden "У вас нет прав для удаления этого комментария.")
    else
      if String.eqb (method request) "POST" then
        modify_world (set_comments (λ t, delete (pk comment) t));;
        mret (redirect (blog_post_detail post_id))
      else
        let context := [("comment", VComment comment); ("is_delete", VTrue)] in
        mret (render "blog/comment.html" context)
  ) request.

(** [request.POST or None]: an empty submission leaves the form unbound. *)
Definition POST_or_None (request : Request) : option (gmap string string) :=
  if bool_decide (POST request = ∅) then None else Some (POST request).

Definition add_comment (request : Request) (post_id : nat) : M HttpResponse :=
  login_required (λ request,
    w ← get_world;
    post ← lift (get_object_or_404 (get_by_pk (posts w) post_id));
    let form := CommentForm w (POST_or_None request) ∅ in
    if is_valid form then
      match user request with
      | None => raise ValueError
      | Some u =>
          (* comment = form.save(commit=False) *)
          let comment := instance form in
          let comment := <["author" := VRef (pk u)]> comment in
          let comment := <["post" := VRef (pk post)]> comment in
          save_new_comment comment;;
          mret (redirect (blog_post_detail post_id))
      end
    else
      let context :=
        [("post", VPost post); ("form", VForm form);
         ("comments", VComments
            (filter (λ c, Comment.post (row c) = pk post) (all (comments w))))] in
      mret (render "blog/detail.html" context)
  ) request.

End Blog.

(** ** Instances used to run the handlers on concrete requests *)

(** [int] on the plain decimal strings, with an optional minus sign. *)
Fixpoint decimal_digits (s : string) (acc : Z) : option Z :=
  match s with
  | EmptyString => Some acc
  | String c s' =>
      let n := nat_of_ascii c in
      if ((48 <=? n)%nat && (n <=? 57)%nat)
      then decimal_digits s' (10 * acc + Z.of_nat (n - 48))
      else None
  end.

Definition decimal_int (s : string) : option Z :=
  match s with
  | EmptyString => None
  | String "-" EmptyString => None
  | String "-" s' => Z.opp <$> decimal_digits s' 0
  | _ => decimal_digits s 0
  end.

(** A date parser on the times of one day, written
    [1970-01-01 HH:MM:SS], read as the seconds since the start of that
    day. *)
Definition digit (c : ascii) : option Z :=
  let n := nat_of_ascii c in
  if ((48 <=? n)%nat && (n <=? 57)%nat) then Some (Z.of_nat (n - 48)) else None.

Definition two_digits (c1 c2 : ascii) : option Z :=
  a ← digit c1; b ← digit c2; Some (10 * a + b).

Definition day_datetime (s : string) : option Z :=
  if String.prefix "1970-01-01 " s then
    match String.substring 11 (String.length s - 11) s with
    | String h1 (String h2 (String c1 (String m1 (String m2
        (String c2 (String s1 (String s2 EmptyString))))))) =>
        if Ascii.eqb c1 ":" && Ascii.eqb c2 ":" then
          h ← two_digits h1 h2;
          m ← two_digits m1 m2;
          sec ← two_digits s1 s2;
          if (h <? 24) && (m <? 60) && (sec <? 60)
          then Some (3600 * h + 60 * m + sec) else None
        else None
    | _ => None
    end
  else None.

(** Comments deleted with their post. *)
Definition CASCADE (k : nat) (t : gmap nat Comment.t) : gmap nat Comment.t :=
  filter (λ kc, Comment.post kc.2 ≠ k) t.

(** An edit view that only shows the object. *)
Definition show_post (request : Request) (post_id : nat) : M HttpResponse :=
  w ← get_world;
  obj ← lift (get_object_or_404 (get_by_pk (posts w) post_id));
  mret (render "blog/create.html" [("post", VPost obj); ("is_edit", VTrue)]).

(** A small site: two users, a published and a hidden category, four
    posts of the first user, two comments.  The clock stands at 100. *)
Definition alice : User.t :=
  {| User.username := "alice"; User.password := make_password "a-secret" |}.
Definition bob : User.t :=
  {| User.username := "bob"; User.password := make_password "b-secret" |}.

Definition site : World :=
  {| users := <[1%nat := alice]> (<[2%nat := bob]> ∅);
     categories :=
       <[1%nat := {| Category.slug := "news"; Category.is_published := true |}]>
       (<[2%nat := {| Category.slug := "drafts"; Category.is_published := false |}]> ∅);
     posts :=
       <[1%nat := Post.Build "first" "text" 10 true 1 1]>
       (<[2%nat := Post.Build "future" "text" 500 true 1 1]>
       (<[3%nat := Post.Build "hidden" "text" 20 false 1 1]>
       (<[4%nat := Post.Build "draft" "text" 30 true 1 2]> ∅)));
     comments :=
       <[1%nat := Comment.Build "hello" 2 1 50]>
       (<[2%nat := Comment.Build "again" 1 1 60]> ∅);
     session := {| SESSION_KEY := Some 2%nat;
                   HASH_SESSION_KEY := Some (User.get_session_auth_hash bob) |};
     now := 100 |}.

Definition request_of (viewer : option (Obj User.t)) (method : string)
    (query form : list (string * string)) : Request :=
  {| user := viewer; method := method;
     GET := list_to_map query; POST := list_to_map form |}.

(** ** Conditions on the store and on results *)

(** The store keeps user names unique. *)
Definition unique_usernames (w : World) : Prop :=
  NoDup ((λ u, User.username (row u)) <$> all (users w)).

(** The viewer of a request, when authenticated, is a row of the store. *)
Definition viewer_in_store (request : Request) (w : World) : Prop :=
  match user request with
  | Some v => users w !! pk v = Some (row v)
  | None => True
  end.

(** The three conjuncts of public visibility, read off the store. *)
Definition visible_in (w : World) (p : Obj Post.t) : Prop :=
  Post.is_published (row p) = true
  ∧ (∃ c, categories w !! Post.category (row p) = Some c
          ∧ Category.is_published c = true)
  ∧ Post.pub_date (row p) ≤ now w.

(** What a listing handler gets from [paginate]: a valid page of at most
    [LIMIT_POSTS] posts, taken in order from the listed posts. *)
Definition listing_page (posts : list (Obj Post.t)) (pg : Page.t) : Prop :=
  object_list (Page.paginator pg) = posts
  ∧ per_page (Page.paginator pg) = LIMIT_POSTS
  ∧ 1 ≤ Page.number pg ≤ num_pages (Page.paginator pg)
  ∧ Page.object_list pg
    = take 10 (drop (Z.to_nat ((Page.number pg - 1) * 10)) posts)
  ∧ (length (Page.object_list pg) ≤ 10)%nat
  ∧ Page.object_list pg `sublist_of` posts.

(** The page number a listing shows for the [page] parameter of a request,
    read as a number by [int]: the number itself when it is one of the
    pages, the first page when it is not a number, the last page
    otherwise. *)
Definition shown_number (int_of : string → option Z) (request : Request)
    (pg : Page.t) : Prop :=
  Page.number pg
  = match GET request !! "page" ≫= int_of with
    | Some n =>
        if (1 <=? n) && (n <=? num_pages (Page.paginator pg)) then n
        else num_pages (Page.paginator pg)
    | None => 1
    end.

(** * Properties of the handlers *)

(** Running a handler: the monad's operations unfold to plain pairs. *)
Ltac run :=
  unfold login_required, lift, raise, get_world, modify_world;
  unfold mbind, M_bind, mret, M_ret; simpl.

Lemma get_by_pk_Some {A} (table : gmap nat A) k x :
  table !! k = Some x → get_object_or_404 (get_by_pk table k) = Return (k, x).
Proof. intros H. unfold get_by_pk. by rewrite H. Qed.

Lemma get_by_pk_None {A} (table : gmap nat A) k :
  table !! k = None → get_object_or_404 (get_by_pk table k) = Raise Http404.
Proof. intros H. unfold get_by_pk. by rewrite H. Qed.

Lemma is_user_false_ne u k : k ≠ pk u → is_user (Some u) k = false.
Proof. intros H. unfold is_user. by apply bool_decide_eq_false. Qed.

Lemma is_user_true_eq u k : k = pk u → is_user (Some u) k = true.
Proof. intros H. unfold is_user. by apply bool_decide_eq_true. Qed.

Arguments is_user : simpl never.
Arguments CommentForm : simpl never.
Arguments PostForm : simpl never.
Arguments PasswordChangeForm : simpl never.

Section Properties.

#[local] Set Default Proof Using "Type".

Context (py_int parse_datetime : string → option Z).
Context (UpdateView_dispatch : Request → nat → M HttpResponse).
Context (Comment_post_on_delete : nat → gmap nat Comment.t → gmap nat Comment.t).

(** C5. A post-update request by an authenticated viewer who is not the
    author of the post is answered by a redirect to the detail page of that
    post, and the world (so the post) is left as it was. *)
Theorem PostUpdateView_non_author_redirected
    (request : Request) (post_id : nat) (w : World) (u : Obj User.t) (p : Post.t) :
  user request = Some u →
  posts w !! post_id = Some p →
  Post.author p ≠ pk u →
  PostUpdateView_dispatch UpdateView_dispatch request post_id w
  = (Return (redirect (blog_post_detail post_id)), w).
Proof.
  intros Hu Hp Hne.
  unfold PostUpdateView_dispatch, PostUpdateView_get_object. run.
  rewrite (get_by_pk_Some _ _ _ Hp). simpl.
  rewrite Hu, is_user_false_ne by done. done.
Qed.

(** C7. A comment-update or comment-delete request by an authenticated
    viewer who is not the author of the comment is answered by the explicit
    "forbidden" response, whatever the method, and the world (so the
    comment) is left as it was. *)
Theorem comment_non_author_forbidden
    (request : Request) (post_id comment_id : nat) (w : World)
    (u : Obj User.t) (c : Comment.t) :
  user request = Some u →
  comments w !! comment_id = Some c →
  Comment.author c ≠ pk u →
  (∃ content, edit_comment py_int request post_id comment_id w
              = (Return (HttpResponseForbidden content), w))
  ∧ (∃ content, delete_comment request post_id comment_id w
                = (Return (HttpResponseForbidden content), w)).
Proof.
  intros Hu Hc Hne.
  unfold edit_comment, delete_comment. run. rewrite Hu. simpl.
  rewrite (get_by_pk_Some _ _ _ Hc). simpl.
  rewrite is_user_false_ne by done. simpl.
  eauto.
Qed.

(** C6. Post deletion looks the post up among the viewer's own posts.  For
    an authenticated viewer: a post of another author (or no post) gives
    "not found" and leaves the world as it was; for the owner, a request
    that is not a POST renders the confirmation page and leaves the world
    as it was, and a POST removes the post from the table, leaves the
    other posts, the users and the categories as they were, and redirects
    to the viewer's profile. *)
Theorem delete_post_owner_scoped
    (request : Request) (post_id : nat) (w : World) (u : Obj User.t) :
  user request = Some u →
  (posts w !! post_id = None →
     delete_post Comment_post_on_delete request post_id w = (Raise Http404, w))
  ∧ (∀ p, posts w !! post_id = Some p →
     (Post.author p ≠ pk u →
        delete_post Comment_post_on_delete request post_id w = (Raise Http404, w))
     ∧ (Post.author p = pk u → method request ≠ "POST" →
        delete_post Comment_post_on_delete request post_id w
        = (Return (render "blog/create.html"
                     [("post", VPost (post_id, p)); ("is_delete", VTrue)]), w))
     ∧ (Post.author p = pk u → method request = "POST" →
        ∃ w', delete_post Comment_post_on_delete request post_id w
              = (Return (redirect (blog_profile (User.username (row u)))), w')
          ∧ posts w' = delete post_id (posts w)
          ∧ posts w' !! post_id = None
          ∧ (∀ k, k ≠ post_id → posts w' !! k = posts w !! k)
          ∧ users w' = users w ∧ categories w' = categories w)).
Proof.
  intros Hu. unfold delete_post. run. rewrite Hu. simpl. split.
  - intros Hp. unfold get_by_pk. by rewrite Hp.
  - intros p Hp. unfold get_by_pk. rewrite Hp. simpl.
    rewrite filter_cons, filter_nil. simpl. repeat split.
    + intros Hne. rewrite is_user_false_ne by done. by case_decide.
    + intros He Hm. rewrite is_user_true_eq by done. case_decide; [|done].
      simpl. apply String.eqb_neq in Hm. by rewrite Hm.
    + intros He Hm. rewrite is_user_true_eq by done. case_decide; [|done].
      simpl. apply String.eqb_eq in Hm. rewrite Hm. simpl.
      eexists. split; [reflexivity|]. simpl.
      split; [done|]. split; [apply lookup_delete_eq|].
      split; [|done]. intros k Hk. by apply lookup_delete_ne.
Qed.

Lemma CommentForm_fields_eq : CommentForm_fields py_int = [("text", CharField)].
Proof. reflexivity. Qed.

(** The comment form on submitted data: it is valid exactly when the text
    field cleans, and then the instance is the comment with the new text. *)
Lemma CommentForm_valid w data c text :
  CharField_clean (data !! "text") = inr (VStr text) →
  is_valid (CommentForm py_int w (Some data) (Comment_to_attrs c)) = true
  ∧ errors (CommentForm py_int w (Some data) (Comment_to_attrs c)) = []
  ∧ Comment_of_attrs (instance (CommentForm py_int w (Some data) (Comment_to_attrs c)))
    = Some (Comment.set_text c text).
Proof.
  intros H. unfold CommentForm, ModelForm, full_clean.
  rewrite CommentForm_fields_eq. simpl. rewrite H. simpl.
  repeat split.
Qed.

Lemma CommentForm_invalid w data inst msg :
  CharField_clean (data !! "text") = inl msg →
  is_valid (CommentForm py_int w (Some data) inst) = false.
Proof.
  intros H. unfold CommentForm, ModelForm, full_clean.
  rewrite CommentForm_fields_eq. simpl. by rewrite H.
Qed.

(** C10. The comment handlers find the comment by its id alone.  For an
    authenticated viewer the outcome is "not found" exactly when no comment
    has that id; for the author of the comment and any post id in the
    request, whether or not it is the post of the comment, a POST to the
    delete handler removes the comment, a POST of a valid text to the edit
    handler stores the comment with the new text, and both redirect to the
    detail page of the post id of the request. *)
Theorem comment_handlers_ignore_post_id
    (request : Request) (post_id comment_id : nat) (w : World) (u : Obj User.t) :
  user request = Some u →
  ((edit_comment py_int request post_id comment_id w).1 = Raise Http404
     ↔ comments w !! comment_id = None)
  ∧ ((delete_comment request post_id comment_id w).1 = Raise Http404
     ↔ comments w !! comment_id = None)
  ∧ (∀ c, comments w !! comment_id = Some c →
       Comment.author c = pk u → method request = "POST" →
       delete_comment request post_id comment_id w
       = (Return (redirect (blog_post_detail post_id)),
          set_comments (λ t, delete comment_id t) w)
       ∧ ∀ text, CharField_clean (POST request !! "text") = inr (VStr text) →
           edit_comment py_int request post_id comment_id w
           = (Return (redirect (blog_post_detail post_id)),
              set_comments (λ t, <[comment_id := Comment.set_text c text]> t) w)).
Proof.
  intros Hu. unfold edit_comment, delete_comment. run. rewrite Hu. simpl.
  unfold get_by_pk.
  destruct (comments w !! comment_id) as [c|] eqn:Hc; simpl.
  - split; [|split].
    + split; [|done]. destruct (is_user _ _); simpl; [|done].
      destruct (_ =? _)%string; [|done].
      destruct (is_valid _); [|done].
      unfold save_comment. destruct (negb _); [done|].
      destruct (Comment_of_attrs _); done.
    + split; [|done]. destruct (is_user _ _); simpl; [|done].
      destruct (_ =? _)%string; done.
    + intros c' [= <-] Ha Hm. rewrite is_user_true_eq by done. simpl.
      apply String.eqb_eq in Hm. rewrite Hm. split; [done|].
      intros text Ht.
      destruct (CommentForm_valid w (POST request) c text Ht) as (Hv & He & Hi).
      rewrite Hv. unfold save_comment. rewrite He. simpl.
      unfold CommentForm, ModelForm in Hi. simpl in Hi. rewrite Hi. done.
  - split; [done|]. split; [done|]. intros c' [=].
Qed.

(** ** Pagination *)

Lemma num_pages_pos (p : Paginator) : 0 < per_page p → 1 ≤ num_pages p.
Proof.
  intros Hpp. unfold num_pages.
  assert ((- Z.max 1 (count p - 0)) `div` per_page p < 0); [|lia].
  apply Z.div_lt_upper_bound; lia.
Qed.

(** The last page starts inside the list (or at its start when the list is
    empty). *)
Lemma num_pages_bottom (p : Paginator) (n : Z) :
  0 < per_page p → 1 ≤ n ≤ num_pages p →
  0 ≤ (n - 1) * per_page p ≤ Z.max 0 (count p - 1).
Proof.
  intros Hpp [Hn1 Hn2]. unfold num_pages in Hn2. split; [nia|].
  assert (0 ≤ count p) by (unfold count; lia).
  set (h := Z.max 1 (count p - 0)) in *.
  assert (Hd : per_page p * ((- h) `div` per_page p) ≤ - h)
    by (apply Z.mul_div_le; lia).
  assert (Hm : - h < per_page p * ((- h) `div` per_page p) + per_page p).
  { pose proof (Z.mod_pos_bound (- h) (per_page p) Hpp).
    pose proof (Z.div_mod (- h) (per_page p)). lia. }
  nia.
Qed.

Lemma StronglySorted_sublist {A} (R : relation A) (l k : list A) :
  l `sublist_of` k → StronglySorted R k → StronglySorted R l.
Proof.
  induction 1 as [|x l k Hs IH|x l k Hs IH]; intros Hk; [done|..].
  - apply StronglySorted_inv in Hk as [Hk Hx]. constructor; [by apply IH|].
    rewrite Forall_forall in Hx |- *. intros y Hy. apply Hx.
    by eapply elem_of_sublist.
  - apply StronglySorted_inv in Hk as [Hk _]. by apply IH.
Qed.

Lemma slice_sublist {A} (l : list A) (bottom top : Z) : slice l bottom top `sublist_of` l.
Proof. unfold slice. etrans; [apply sublist_take|apply sublist_drop]. Qed.

(** [get_page] always gives a page: its number is a valid one, it holds the
    [per_page] objects that start at [(number - 1) * per_page] (fewer at
    the end of the list). *)
Lemma get_page_spec (p : Paginator) (number : PyNumber) :
  0 < per_page p →
  ∃ pg, get_page py_int p number = Return pg
    ∧ Page.paginator pg = p
    ∧ 1 ≤ Page.number pg ≤ num_pages p
    ∧ Page.object_list pg
      = take (Z.to_nat (per_page p))
          (drop (Z.to_nat ((Page.number pg - 1) * per_page p)) (object_list p)).
Proof.
  intros Hpp. pose proof (num_pages_pos p Hpp) as Hnp.
  assert (Hpage : ∀ n, 1 ≤ n ≤ num_pages p →
    ∃ pg, page py_int p (PyInt n) = Return pg ∧ Page.paginator pg = p
      ∧ Page.number pg = n
      ∧ Page.object_list pg
        = take (Z.to_nat (per_page p))
            (drop (Z.to_nat ((n - 1) * per_page p)) (object_list p))).
  { intros n Hn. unfold page, validate_number. simpl.
    destruct (Z.ltb_spec n 1); [lia|].
    destruct (Z.ltb_spec (num_pages p) n); [lia|].
    eexists. split; [reflexivity|]. simpl. repeat split.
    pose proof (num_pages_bottom p n Hpp Hn) as Hb.
    unfold slice. destruct (Z.leb_spec (count p) ((n - 1) * per_page p + per_page p + 0)).
    - rewrite !take_ge; [done|..]; rewrite length_drop; unfold count in *; lia.
    - f_equal. lia. }
  assert (Hn : ∃ n, 1 ≤ n ≤ num_pages p
                ∧ get_page py_int p number = page py_int p (PyInt n)).
  { unfold get_page, validate_number.
    destruct (int py_int number) as [n|].
    - destruct (Z.ltb_spec n 1); [exists (num_pages p); split; [lia|done]|].
      destruct (Z.ltb_spec (num_pages p) n).
      + exists (num_pages p). split; [lia|done].
      + exists n. split; [lia|done].
    - exists 1. split; [lia|done]. }
  destruct Hn as (n & Hn & Heq).
  destruct (Hpage n Hn) as (pg & H1 & H2 & H3 & H4).
  exists pg. rewrite Heq, H3. auto.
Qed.

Lemma paginate_spec (posts : list (Obj Post.t)) (request : Request) :
  ∃ pg, paginate py_int posts request = Return pg ∧ listing_page posts pg.
Proof.
  unfold paginate.
  destruct (get_page_spec {| object_list := posts; per_page := LIMIT_POSTS |}
              (page_param request)) as (pg & H1 & H2 & H3 & H4); [done|].
  exists pg. split; [done|]. unfold listing_page. rewrite H2. simpl in *.
  change (Z.to_nat LIMIT_POSTS) with 10%nat in H4.
  change LIMIT_POSTS with 10 in H4 at 1.
  split; [done|]. split; [done|]. split; [done|]. split; [done|].
  rewrite H4. split.
  - rewrite length_take. lia.
  - etrans; [apply sublist_take|apply sublist_drop].
Qed.

(** ** The listings *)

Lemma order_by_elem_of (l : list (Obj Post.t)) (p : Obj Post.t) :
  p ∈ order_by_pub_date_desc l ↔ p ∈ l.
Proof. unfold order_by_pub_date_desc. by rewrite merge_sort_Permutation. Qed.

Lemma order_by_sorted (l : list (Obj Post.t)) :
  StronglySorted pub_date_desc (order_by_pub_date_desc l).
Proof. apply StronglySorted_merge_sort; apply _. Qed.

Lemma order_by_NoDup (l : list (Obj Post.t)) :
  NoDup l → NoDup (order_by_pub_date_desc l).
Proof. unfold order_by_pub_date_desc. by rewrite merge_sort_Permutation. Qed.

Lemma elem_of_all {A} (table : gmap nat A) (o : Obj A) :
  o ∈ all table ↔ table !! pk o = Some (row o).
Proof. destruct o as [k x]. apply elem_of_map_to_list. Qed.

Lemma publicly_visible_spec (w : World) (p : Obj Post.t) :
  publicly_visible w (now w) p = true ↔ visible_in w p.
Proof.
  unfold publicly_visible, visible_in, category__is_published.
  rewrite !andb_true_iff, Z.leb_le.
  destruct (categories w !! Post.category (row p)) as [c|].
  - split.
    + intros [[? ?] ?]. eauto.
    + intros (? & (c' & [= <-] & ?) & ?). done.
  - split.
    + intros [[_ ?] _]. done.
    + intros (_ & (c' & [=] & _) & _).
Qed.

Lemma listing_page_sorted (posts : list (Obj Post.t)) (pg : Page.t) :
  listing_page posts pg → StronglySorted pub_date_desc posts →
  StronglySorted pub_date_desc (Page.object_list pg).
Proof.
  intros (_ & _ & _ & _ & _ & Hs) Hp. by eapply StronglySorted_sublist.
Qed.

Lemma listing_page_elem_of (posts : list (Obj Post.t)) (pg : Page.t) p :
  listing_page posts pg → p ∈ Page.object_list pg → p ∈ posts.
Proof. intros (_ & _ & _ & _ & _ & Hs) Hp. by eapply elem_of_sublist. Qed.

(** C2. Whatever the request and the store, the index handler renders a
    page; every post on it is a post of the store that is published, whose
    category is published and whose publish date is not after the current
    time, and the page is in descending order of publish date. *)
Theorem index_only_visible_posts (request : Request) (w : World) :
  ∃ page_obj,
    index py_int request w
    = (Return (render "blog/index.html" [("page_obj", VPage page_obj)]), w)
    ∧ (∀ p, p ∈ Page.object_list page_obj →
         posts w !! pk p = Some (row p)
         ∧ Post.is_published (row p) = true
         ∧ (∃ c, categories w !! Post.category (row p) = Some c
                 ∧ Category.is_published c = true)
         ∧ Post.pub_date (row p) ≤ now w)
    ∧ StronglySorted pub_date_desc (Page.object_list page_obj).
Proof.
  unfold index. run.
  destruct (paginate_spec
    (order_by_pub_date_desc
       (filter (λ p, publicly_visible w (now w) p) (all (posts w)))) request)
    as (pg & Hpg & Hl).
  rewrite Hpg. exists pg. split; [done|]. split.
  - intros p Hp. eapply listing_page_elem_of in Hp; [|done].
    apply order_by_elem_of, list_elem_of_filter in Hp as [Hv Hp].
    apply elem_of_all in Hp. apply Is_true_true, publicly_visible_spec in Hv.
    destruct Hv as (? & ? & ?). done.
  - eapply listing_page_sorted; [done|]. apply order_by_sorted.
Qed.

(** C9. Every listing handler, for every request and so every value of the
    [page] parameter and every reading of it as a number, renders a page of
    the paginator with [LIMIT_POSTS] = 10 per page: a valid page number and
    at most 10 posts.  The index always does; the category and the profile
    listings fail only as the lookup of the category or of the user does,
    which does not look at the parameter. *)
Theorem listings_paginate_by_ten (request : Request) (w : World) :
  (∃ pg listed,
     index py_int request w
     = (Return (render "blog/index.html" [("page_obj", VPage pg)]), w)
     ∧ listing_page listed pg)
  ∧ (∀ category_slug,
       match get_object_or_404 (published_categories_by_slug w category_slug) with
       | Raise e => category_posts py_int request category_slug w = (Raise e, w)
       | Return category =>
           ∃ pg listed,
             category_posts py_int request category_slug w
             = (Return (render "blog/category.html"
                          [("category", VCategory category);
                           ("page_obj", VPage pg)]), w)
             ∧ listing_page listed pg
       end)
  ∧ (∀ username,
       match get_object_or_404 (users_by_username w username) with
       | Raise e => profile_view py_int request username w = (Raise e, w)
       | Return profile =>
           ∃ pg listed,
             profile_view py_int request username w
             = (Return (render "blog/profile.html"
                          [("profile", VUser profile);
                           ("page_obj", VPage pg)]), w)
             ∧ listing_page listed pg
       end).
Proof.
  split; [|split].
  - unfold index. run.
    match goal with |- context [paginate py_int ?l request] =>
      destruct (paginate_spec l request) as (pg & Hpg & Hl) end.
    rewrite Hpg. eauto.
  - intros category_slug. unfold category_posts. run.
    destruct (get_object_or_404 _) as [category|e]; [|done].
    match goal with |- context [paginate py_int ?l request] =>
      destruct (paginate_spec l request) as (pg & Hpg & Hl) end.
    rewrite Hpg. eauto.
  - intros username. unfold profile_view. run.
    destruct (get_object_or_404 _) as [profile|e]; [|done].
    match goal with |- context [paginate py_int ?l request] =>
      destruct (paginate_spec l request) as (pg & Hpg & Hl) end.
    rewrite Hpg. eauto.
Qed.

Lemma NoDup_fmap_eq {A B} (f : A → B) (l : list A) (x y : A) :
  NoDup (f <$> l) → x ∈ l → y ∈ l → f x = f y → x = y.
Proof.
  induction l as [|a l IH]; simpl; intros Hnd Hx Hy Hf.
  - by apply elem_of_nil in Hx.
  - apply NoDup_cons in Hnd as [Ha Hnd].
    apply elem_of_cons in Hx as [->|Hx]; apply elem_of_cons in Hy as [->|Hy].
    + done.
    + exfalso. apply Ha. rewrite Hf. by apply list_elem_of_fmap_2.
    + exfalso. apply Ha. rewrite <- Hf. by apply list_elem_of_fmap_2.
    + by apply IH.
Qed.

(** With unique user names, the lookup by name finds the user. *)
Lemma users_by_username_unique (w : World) (profile : Obj User.t) :
  unique_usernames w →
  users w !! pk profile = Some (row profile) →
  users_by_username w (User.username (row profile)) = [profile].
Proof.
  intros Huniq Hprofile. unfold users_by_username.
  apply elem_of_all in Hprofile.
  assert (Hall : ∀ x, x ∈ filter (λ u, User.username (row u)
                                        = User.username (row profile))
                               (all (users w)) → x = profile).
  { intros x [Hx Hin]%list_elem_of_filter.
    by eapply (NoDup_fmap_eq _ _ _ _ Huniq). }
  assert (Hin : profile ∈ filter (λ u, User.username (row u)
                                       = User.username (row profile))
                                 (all (users w))).
  { by apply list_elem_of_filter. }
  assert (Hnd : NoDup (filter (λ u, User.username (row u)
                                    = User.username (row profile))
                              (all (users w)))).
  { apply NoDup_filter, NoDup_map_to_list. }
  destruct (filter _ _) as [|a [|b l]].
  - by apply elem_of_nil in Hin.
  - f_equal. apply Hall. left.
  - assert (a = profile) by (apply Hall; left).
    assert (b = profile) by (apply Hall; right; left).
    subst. apply NoDup_cons in Hnd as [Hnd _]. exfalso. apply Hnd. left.
Qed.

(** C3. The profile listing of the user named [username] (user names being
    unique in the store, and not empty).  The listed posts are in descending
    order of publish date, as is the page taken from them.  When the viewer
    is that user, they are all the posts of the store whose author is that
    user; when the viewer is another user or anonymous, they are exactly
    those among them that are published, in a published category and not
    dated after the current time. *)
Theorem profile_view_posts
    (request : Request) (username : string) (w : World) (profile : Obj User.t) :
  unique_usernames w →
  viewer_in_store request w →
  username ≠ "" →
  users w !! pk profile = Some (row profile) →
  User.username (row profile) = username →
  ∃ page_obj listed,
    profile_view py_int request username w
    = (Return (render "blog/profile.html"
                 [("profile", VUser profile); ("page_obj", VPage page_obj)]), w)
    ∧ listing_page listed page_obj
    ∧ NoDup listed
    ∧ StronglySorted pub_date_desc listed
    ∧ StronglySorted pub_date_desc (Page.object_list page_obj)
    ∧ ((∃ v, user request = Some v ∧ pk v = pk profile) →
       ∀ p, p ∈ listed ↔
            posts w !! pk p = Some (row p) ∧ Post.author (row p) = pk profile)
    ∧ ((∀ v, user request = Some v → pk v ≠ pk profile) →
       ∀ p, p ∈ listed ↔
            posts w !! pk p = Some (row p) ∧ Post.author (row p) = pk profile
            ∧ visible_in w p).
Proof.
  intros Huniq Hviewer Hne Hprofile Hname.
  subst username. unfold profile_view. run.
  rewrite users_by_username_unique by done. simpl.
  match goal with |- context [paginate py_int ?l request] =>
    destruct (paginate_spec l request) as (pg & Hpg & Hl); set (listed := l) in * end.
  rewrite Hpg. exists pg, listed. split; [done|]. split; [done|].
  assert (Hnd : NoDup (posts_of_author w (pk profile)))
    by apply NoDup_filter, NoDup_map_to_list.
  assert (Hown : ∀ p, p ∈ posts_of_author w (pk profile) ↔
            posts w !! pk p = Some (row p) ∧ Post.author (row p) = pk profile).
  { intros p. unfold posts_of_author. rewrite list_elem_of_filter, elem_of_all.
    split; intros [? ?]; done. }
  split; [|split; [apply order_by_sorted|split]].
  - apply order_by_NoDup. case_bool_decide; [by apply NoDup_filter|done].
  - eapply listing_page_sorted; [done|]. apply order_by_sorted.
  - split.
    + intros (v & Hv & Hpk) p. subst listed. rewrite order_by_elem_of.
      rewrite bool_decide_eq_false_2; [apply Hown|].
      intros Hd. apply Hd. rewrite Hv. simpl.
      unfold viewer_in_store in Hviewer. rewrite Hv, Hpk, Hprofile in Hviewer.
      congruence.
    + intros Hother p. subst listed. rewrite order_by_elem_of.
      rewrite bool_decide_eq_true_2.
      * rewrite list_elem_of_filter, Hown, <- publicly_visible_spec.
        rewrite Is_true_true. split; intros (? & ? & ?); done.
      * destruct (user request) as [v|] eqn:Hv; simpl; [|congruence].
        intros Heq. apply (Hother v eq_refl).
        unfold viewer_in_store in Hviewer. rewrite Hv in Hviewer.
        apply elem_of_all in Hviewer, Hprofile.
        by rewrite (NoDup_fmap_eq _ _ v profile Huniq Hviewer Hprofile Heq).
Qed.

(** ** Post creation *)

Lemma next_pk_fresh {A} (table : gmap nat A) : table !! next_pk table = None.
Proof.
  destruct (table !! next_pk table) as [x|] eqn:H; [|done].
  apply elem_of_map_to_list in H.
  assert (Hin : next_pk table ∈ (map_to_list table).*1).
  { apply list_elem_of_fmap. by exists (next_pk table, x). }
  apply max_list_elem_of_le in Hin. unfold next_pk in Hin. lia.
Qed.

Lemma _clean_fields_agree (w : World) (fields : list (string * Field))
    (d1 d2 : gmap string string) :
  (∀ name, name ∈ fields.*1 → d1 !! name = d2 !! name) →
  _clean_fields w fields d1 = _clean_fields w fields d2.
Proof.
  induction fields as [|[name field] rest IH]; intros H; [done|].
  simpl. rewrite IH, (H name).
  - done.
  - left.
  - intros n Hn. apply H. by right.
Qed.

Lemma PostForm_fields_names :
  (PostForm_fields py_int parse_datetime).*1
  = ["title"; "body"; "pub_date"; "is_published"; "category"].
Proof. reflexivity. Qed.

Lemma PostForm_ignores_author (w : World) (d1 d2 : gmap string string) inst :
  (∀ name, name ≠ "author" → d1 !! name = d2 !! name) →
  PostForm py_int parse_datetime w (Some d1) inst
  = PostForm py_int parse_datetime w (Some d2) inst.
Proof.
  intros H. unfold PostForm, ModelForm, full_clean.
  rewrite (_clean_fields_agree w _ d1 d2); [done|].
  intros name Hn. apply H. intros ->.
  rewrite PostForm_fields_names in Hn.
  repeat (apply elem_of_cons in Hn as [Hn|Hn]; [discriminate|]).
  by apply elem_of_nil in Hn.
Qed.

Lemma Post_of_attrs_author (a : gmap string FieldValue) (k : nat) (p : Post.t) :
  Post_of_attrs (<["author" := VRef k]> a) = Some p → Post.author p = k.
Proof.
  unfold Post_of_attrs. rewrite lookup_insert_eq.
  intros H. repeat case_match; try discriminate. by injection H as <-.
Qed.

Lemma PostForm_fields_eq :
  PostForm_fields py_int parse_datetime
  = [("title", CharField); ("body", CharField);
     ("pub_date", DateTimeField parse_datetime);
     ("is_published", BooleanField);
     ("category", ModelChoiceField py_int categories)].
Proof. reflexivity. Qed.

(** The post creation on five fields that clean. *)
Lemma PostCreateView_post_run
    (request : Request) (w : World) (u : Obj User.t)
    (title body : string) (pub_date : Z) (is_published : bool) (category : nat) :
  user request = Some u →
  method request = "POST" →
  CharField_clean (POST request !! "title") = inr (VStr title) →
  CharField_clean (POST request !! "body") = inr (VStr body) →
  clean (DateTimeField parse_datetime) w (POST request !! "pub_date")
  = inr (VDateTime pub_date) →
  BooleanField_clean (POST request !! "is_published") = inr (VBool is_published) →
  clean (ModelChoiceField py_int categories) w (POST request !! "category")
  = inr (VRef category) →
  PostCreateView py_int parse_datetime request w
  = (Return (redirect (blog_profile (User.username (row u)))),
     set_posts
       (λ t, <[next_pk (posts w)
               := Post.Build title body pub_date is_published (pk u) category]> t)
       w)
  ∧ posts w !! next_pk (posts w) = None.
Proof.
  intros Hu Hm Ht Hb Hd Hp Hc. split; [|apply next_pk_fresh].
  unfold PostCreateView, View_dispatch. run. rewrite Hu, Hm. simpl.
  unfold PostCreateView_post. run.
  unfold PostForm, ModelForm, full_clean. rewrite PostForm_fields_eq.
  cbn [_clean_fields]. rewrite Hc.
  change (clean BooleanField w (POST request !! "is_published"))
    with (BooleanField_clean (POST request !! "is_published")).
  change (clean CharField w (POST request !! "title"))
    with (CharField_clean (POST request !! "title")).
  change (clean CharField w (POST request !! "body"))
    with (CharField_clean (POST request !! "body")).
  rewrite Hp, Hd, Hb, Ht. simpl.
  unfold PostCreateView_form_valid, PostCreateView_get_success_url.
  rewrite Hu. run. unfold save_new_post. simpl. done.
Qed.

(** C4. Post creation by an authenticated viewer.  A POST whose five form
    fields clean stores exactly one new post, under a fresh key, with the
    cleaned values and the viewer as author, and redirects to the viewer's
    profile, whatever the submitted data hold at the key [author].  Every
    outcome either leaves the world as it was (the form is shown, or shown
    again with its errors) or stores one new post whose author is the
    viewer.  The submitted data are read at the keys of the form's fields
    only: two submissions that differ at the key [author] at most have the
    same outcome. *)
Theorem PostCreateView_author_is_viewer
    (request : Request) (w : World) (u : Obj User.t) :
  user request = Some u →
  (method request = "POST" →
   ∀ title body pub_date is_published category,
     CharField_clean (POST request !! "title") = inr (VStr title) →
     CharField_clean (POST request !! "body") = inr (VStr body) →
     clean (DateTimeField parse_datetime) w (POST request !! "pub_date")
     = inr (VDateTime pub_date) →
     BooleanField_clean (POST request !! "is_published")
     = inr (VBool is_published) →
     clean (ModelChoiceField py_int categories) w (POST request !! "category")
     = inr (VRef category) →
     PostCreateView py_int parse_datetime request w
     = (Return (redirect (blog_profile (User.username (row u)))),
        set_posts
          (λ t, <[next_pk (posts w)
                  := Post.Build title body pub_date is_published (pk u)
                       category]> t) w)
     ∧ posts w !! next_pk (posts w) = None)
  ∧ ((∃ response,
      PostCreateView py_int parse_datetime request w = (response, w))
   ∨ (∃ p,
      PostCreateView py_int parse_datetime request w
      = (Return (redirect (blog_profile (User.username (row u)))),
         set_posts (λ t, <[next_pk (posts w) := p]> t) w)
      ∧ posts w !! next_pk (posts w) = None
      ∧ Post.author p = pk u))
  ∧ (∀ request',
       user request' = user request →
       method request' = method request →
       (∀ name, name ≠ "author" → POST request' !! name = POST request !! name) →
       PostCreateView py_int parse_datetime request' w
       = PostCreateView py_int parse_datetime request w).
Proof.
  intros Hu. split; [|split].
  - intros Hm title body pub_date is_published category Ht Hb Hd Hp Hc.
    by apply PostCreateView_post_run.
  - unfold PostCreateView, View_dispatch. run. rewrite Hu. simpl.
    destruct (_ || _); [left; eauto|].
    destruct (_ || _); [|destruct (_ =? _)%string; left; eauto].
    unfold PostCreateView_post. run.
    generalize (PostForm py_int parse_datetime w (Some (POST request)) ∅).
    intros form.
    destruct (is_valid form) eqn:Hv; [|left; eauto].
    unfold PostCreateView_form_valid. rewrite Hu. run.
    unfold save_new_post. simpl.
    apply andb_true_iff in Hv as [_ ->]. simpl.
    destruct (Post_of_attrs _) as [p|] eqn:Hp; [|left; eauto].
    right. exists p. run. unfold PostCreateView_get_success_url. rewrite Hu.
    split; [done|]. split; [apply next_pk_fresh|].
    by eapply Post_of_attrs_author.
  - intros request' Hu' Hm HP.
    unfold PostCreateView, View_dispatch. run. rewrite Hu', Hu, Hm. simpl.
    destruct (_ || _); [done|]. destruct (_ || _); [|done].
    unfold PostCreateView_post. run.
    rewrite (PostForm_ignores_author w (POST request') (POST request)) by done.
    destruct (is_valid _); [|done].
    unfold PostCreateView_form_valid, PostCreateView_get_success_url.
    by rewrite Hu', Hu.
Qed.

(** ** Password change *)

(** The character field accepts a value exactly when, stripped, it is not
    empty and has no null character; the cleaned value is the stripped
    one. *)
Lemma CharField_clean_inr (raw : option string) (v : FieldValue) :
  CharField_clean raw = inr v ↔
  ∃ s, raw = Some s ∧ v = VStr (strip s) ∧ strip s ≠ ""
       ∧ has_null (strip s) = false.
Proof.
  unfold CharField_clean. destruct raw as [s|]; simpl.
  - destruct (String.eqb_spec (strip s) "") as [He|He].
    + split; [done|]. intros (s' & [= <-] & _ & Hne & _). done.
    + destruct (has_null (strip s)) eqn:Hn.
      * split; [done|]. intros (s' & [= <-] & _ & _ & Hn'). congruence.
      * split.
        -- intros [= <-]. eauto.
        -- intros (s' & [= <-] & -> & _). done.
  - split; [done|]. intros (s' & [=] & _).
Qed.

(** The password form on submitted data, by the outcome of its two
    fields. *)
Lemma PasswordChangeForm_valid (w : World) (data : gmap string string) (a : string) :
  CharField_clean (data !! "password1") = inr (VStr a) →
  CharField_clean (data !! "password2") = inr (VStr a) →
  is_valid (PasswordChangeForm w (Some data)) = true
  ∧ cleaned_data (PasswordChangeForm w (Some data)) !! "password1" = Some (VStr a).
Proof.
  intros H1 H2. unfold PasswordChangeForm, full_clean. simpl.
  rewrite H1, H2. simpl. unfold PasswordChangeForm_clean.
  repeat (rewrite lookup_insert_eq || rewrite lookup_insert_ne by done).
  rewrite (bool_decide_eq_false_2 (Some (VStr a) ≠ Some (VStr a)))
    by (intros Hx; by apply Hx).
  rewrite andb_false_r. done.
Qed.

Lemma PasswordChangeForm_invalid (w : World) (data : gmap string string) :
  (∀ a, CharField_clean (data !! "password1") = inr (VStr a) →
        CharField_clean (data !! "password2") ≠ inr (VStr a)) →
  is_valid (PasswordChangeForm w (Some data)) = false.
Proof.
  intros H. unfold PasswordChangeForm, full_clean. simpl.
  destruct (CharField_clean (data !! "password1")) as [m1|v1] eqn:H1;
    destruct (CharField_clean (data !! "password2")) as [m2|v2] eqn:H2; simpl;
    try by (unfold PasswordChangeForm_clean; destruct (_ && _)).
  apply CharField_clean_inr in H1 as (s1 & E1 & -> & Hn1 & Hz1).
  apply CharField_clean_inr in H2 as (s2 & E2 & -> & Hn2 & Hz2).
  unfold PasswordChangeForm_clean.
  repeat (rewrite lookup_insert_eq || rewrite lookup_insert_ne by done).
  simpl. apply String.eqb_neq in Hn1 as Hb1. apply String.eqb_neq in Hn2 as Hb2.
  rewrite Hb1, Hb2. simpl.
  rewrite bool_decide_eq_true_2; [done|].
  intros [= Heq]. apply (H (strip s1)); [done|by rewrite Heq].
Qed.


(** ** Post detail *)

(** What the detail view checks for a viewer who is not the author: the
    published flag of the post and of its category, and nothing else. *)
Lemma PostDetailView_get_object_non_author
    (request : Request) (post_id : nat) (w : World) (p : Post.t) (c : Category.t) :
  posts w !! post_id = Some p →
  categories w !! Post.category p = Some c →
  is_user (user request) (Post.author p) = false →
  PostDetailView_get_object request post_id w
  = (if Post.is_published p && Category.is_published c
     then Return (post_id, p) else Raise Http404, w).
Proof.
  intros Hp Hc Hu. unfold PostDetailView_get_object. run.
  rewrite (get_by_pk_Some _ _ _ Hp). simpl. rewrite Hu. simpl.
  destruct (Post.is_published p); [|done]. simpl.
  unfold related_category. rewrite Hc.
  by destruct (Category.is_published c).
Qed.

End Properties.

(** * The handlers on the small site *)

(** C1. The detail view does not look at the publish date.  On the small
    site, whose clock stands at 100, the post 2 is published, in a published
    category and dated 500; the viewer is not its author; the post fails the
    public-visibility filter of the listings, and the detail view returns it
    and renders it instead of raising "not found". *)
Theorem PostDetailView_serves_future_post :
  posts site !! 2%nat = Some (Post.Build "future" "text" 500 true 1 1)
  ∧ is_user (Some (2%nat, bob)) 1 = false
  ∧ now site < 500
  ∧ publicly_visible site (now site)
      (2%nat, Post.Build "future" "text" 500 true 1 1) = false
  ∧ PostDetailView_get_object (request_of (Some (2%nat, bob)) "GET" [] []) 2 site
    = (Return (2%nat, Post.Build "future" "text" 500 true 1 1), site)
  ∧ ∃ context,
      PostDetailView decimal_int (request_of (Some (2%nat, bob)) "GET" [] []) 2 site
      = (Return (render "blog/detail.html" context), site).
Proof.
  split; [reflexivity|]. split; [reflexivity|]. split; [reflexivity|].
  split; [reflexivity|]. split; [reflexivity|].
  eexists. vm_compute. reflexivity.
Qed.

(** The whitespace stripped is Python's: a no-break space (U+00A0, the
    bytes 194 160) around a value goes as a space does, a value of that one
    character is empty, and the password form takes [abc] and [abc] led by
    a no-break space as the same password. *)
Example strip_no_break_space :
  strip (String (ascii_of_nat 194) (String (ascii_of_nat 160) " abc ")) = "abc"
  ∧ CharField_clean
      (Some (String (ascii_of_nat 194) (String (ascii_of_nat 160) "")))
    = inl "This field is required."
  ∧ is_valid
      (PasswordChangeForm site
         (Some (list_to_map
                  [("password1", "abc");
                   ("password2",
                    String (ascii_of_nat 194) (String (ascii_of_nat 160) "abc"))])))
    = true.
Proof. repeat split; vm_compute; reflexivity. Qed.

Lemma profile_view_posts_witness :
  ∃ page_obj listed,
    profile_view decimal_int (request_of (Some (2%nat, bob)) "GET" [("page", "-3")] [])
      "alice" site
    = (Return (render "blog/profile.html"
                 [("profile", VUser (1%nat, alice)); ("page_obj", VPage page_obj)]),
       site)
    ∧ listing_page listed page_obj
    ∧ ∀ p, p ∈ listed ↔
           posts site !! pk p = Some (row p) ∧ Post.author (row p) = 1%nat
           ∧ visible_in site p.
Proof.
  destruct (profile_view_posts decimal_int
              (request_of (Some (2%nat, bob)) "GET" [("page", "-3")] [])
              "alice" site (1%nat, alice))
    as (pg & listed & H1 & H2 & _ & _ & _ & _ & H3).
  - apply (bool_decide_unpack _). vm_compute. exact I.
  - vm_compute. reflexivity.
  - discriminate.
  - vm_compute. reflexivity.
  - reflexivity.
  - exists pg, listed. split; [exact H1|]. split; [exact H2|].
    apply H3. intros v Hv. injection Hv as <-. discriminate.
Defined.

Lemma PostCreateView_author_is_viewer_witness :
  POST (request_of (Some (2%nat, bob)) "POST" []
          [("title", "t"); ("body", "b"); ("pub_date", "1970-01-01 00:00:07");
           ("is_published", "on"); ("author", "1"); ("category", "1")])
    !! "author" = Some "1"
  ∧ PostCreateView decimal_int day_datetime
      (request_of (Some (2%nat, bob)) "POST" []
         [("title", "t"); ("body", "b"); ("pub_date", "1970-01-01 00:00:07");
          ("is_published", "on"); ("author", "1"); ("category", "1")]) site
    = (Return (redirect (blog_profile "bob")),
       set_posts (λ t, <[5%nat := Post.Build "t" "b" 7 true 2 1]> t) site).
Proof.
  split; [vm_compute; reflexivity|].
  destruct (PostCreateView_author_is_viewer decimal_int day_datetime
              (request_of (Some (2%nat, bob)) "POST" []
                 [("title", "t"); ("body", "b");
                  ("pub_date", "1970-01-01 00:00:07");
                  ("is_published", "on"); ("author", "1"); ("category", "1")])
              site (2%nat, bob)) as (H & _ & _).
  - reflexivity.
  - apply (H eq_refl "t" "b" 7 true 1%nat); vm_compute; reflexivity.
Defined.

(** The same submission without the key [author], and with another author
    value, run on the site: the stored post is that of the viewer 2. *)
Example PostCreateView_on_site :
  PostCreateView decimal_int day_datetime
    (request_of (Some (2%nat, bob)) "POST" []
       [("title", "t"); ("body", "b"); ("pub_date", "1970-01-01 00:00:07");
        ("is_published", "on"); ("category", "1")]) site
  = (Return (redirect (blog_profile "bob")),
     set_posts (λ t, <[5%nat := Post.Build "t" "b" 7 true 2 1]> t) site)
  ∧ PostCreateView decimal_int day_datetime
      (request_of (Some (2%nat, bob)) "POST" []
         [("title", "t"); ("body", "b"); ("pub_date", "1970-01-01 00:00:07");
          ("is_published", "on"); ("author", "2"); ("category", "1")]) site
    = (Return (redirect (blog_profile "bob")),
       set_posts (λ t, <[5%nat := Post.Build "t" "b" 7 true 2 1]> t) site).
Proof. split; vm_compute; reflexivity. Qed.

Lemma PostUpdateView_non_author_redirected_witness :
  PostUpdateView_dispatch show_post
    (request_of (Some (2%nat, bob)) "POST" [] [("title", "mine")]) 1 site
  = (Return (redirect (blog_post_detail 1)), site).
Proof.
  apply (PostUpdateView_non_author_redirected show_post
           (request_of (Some (2%nat, bob)) "POST" [] [("title", "mine")])
           1%nat site (2%nat, bob) (Post.Build "first" "text" 10 true 1 1)).
  - reflexivity.
  - vm_compute. reflexivity.
  - vm_compute. discriminate.
Defined.

Lemma delete_post_owner_scoped_witness :
  delete_post CASCADE (request_of (Some (2%nat, bob)) "POST" [] []) 1 site
  = (Raise Http404, site).
Proof.
  destruct (delete_post_owner_scoped CASCADE
              (request_of (Some (2%nat, bob)) "POST" [] []) 1%nat site
              (2%nat, bob)) as [_ H].
  - reflexivity.
  - apply (H (Post.Build "first" "text" 10 true 1 1)).
    + vm_compute. reflexivity.
    + vm_compute. discriminate.
Defined.

Lemma comment_non_author_forbidden_witness :
  (∃ content,
     edit_comment decimal_int
       (request_of (Some (1%nat, alice)) "POST" [] [("text", "mine")]) 1 1 site
     = (Return (HttpResponseForbidden content), site))
  ∧ (∃ content,
     delete_comment (request_of (Some (1%nat, alice)) "POST" [] [("text", "mine")])
       1 1 site
     = (Return (HttpResponseForbidden content), site)).
Proof.
  apply (comment_non_author_forbidden decimal_int
           (request_of (Some (1%nat, alice)) "POST" [] [("text", "mine")])
           1%nat 1%nat site (1%nat, alice) (Comment.Build "hello" 2 1 50)).
  - reflexivity.
  - vm_compute. reflexivity.
  - vm_compute. discriminate.
Defined.


Lemma comment_handlers_ignore_post_id_witness :
  Comment.post (Comment.Build "hello" 2 1 50) ≠ 4%nat
  ∧ delete_comment (request_of (Some (2%nat, bob)) "POST" [] [("text", " changed ")])
      4 1 site
    = (Return (redirect (blog_post_detail 4)),
       set_comments (λ t, delete 1%nat t) site)
  ∧ edit_comment decimal_int
      (request_of (Some (2%nat, bob)) "POST" [] [("text", " changed ")]) 4 1 site
    = (Return (redirect (blog_post_detail 4)),
       set_comments (λ t, <[1%nat := Comment.Build "changed" 2 1 50]> t) site).
Proof.
  split; [discriminate|].
  destruct (comment_handlers_ignore_post_id decimal_int
              (request_of (Some (2%nat, bob)) "POST" [] [("text", " changed ")])
              4%nat 1%nat site (2%nat, bob)) as (_ & _ & H).
  - reflexivity.
  - destruct (H (Comment.Build "hello" 2 1 50)) as [Hd He].
    + vm_compute. reflexivity.
    + reflexivity.
    + reflexivity.
    + split; [exact Hd|]. apply (He "changed"). vm_compute. reflexivity.
Defined.


(** * Further properties of the handlers *)

Section Coverage.

#[local] Set Default Proof Using "Type".

Context (py_int parse_datetime : string → option Z).
Context (UpdateView_dispatch : Request → nat → M HttpResponse).
Context (Comment_post_on_delete : nat → gmap nat Comment.t → gmap nat Comment.t).

(** ** The page shown *)

Lemma page_in_range (p : Paginator) (n : Z) :
  1 ≤ n ≤ num_pages p →
  ∃ pg, page py_int p (PyInt n) = Return pg
    ∧ Page.paginator pg = p ∧ Page.number pg = n.
Proof.
  intros Hn. unfold page, validate_number. simpl.
  destruct (Z.ltb_spec n 1); [lia|].
  destruct (Z.ltb_spec (num_pages p) n); [lia|].
  eexists. split; [reflexivity|]. done.
Qed.

Lemma get_page_number (p : Paginator) (number : PyNumber) :
  0 < per_page p →
  ∃ pg, get_page py_int p number = Return pg
    ∧ Page.paginator pg = p
    ∧ Page.number pg
      = match int py_int number with
        | Some n => if (1 <=? n) && (n <=? num_pages p) then n else num_pages p
        | None => 1
        end.
Proof.
  intros Hpp. pose proof (num_pages_pos p Hpp) as Hnp.
  unfold get_page, validate_number.
  destruct (int py_int number) as [n|].
  - destruct (Z.ltb_spec n 1).
    + destruct (Z.leb_spec 1 n); [lia|]. simpl. apply page_in_range. lia.
    + destruct (Z.leb_spec 1 n); [|lia]. simpl.
      destruct (Z.ltb_spec (num_pages p) n).
      * destruct (Z.leb_spec n (num_pages p)); [lia|]. apply page_in_range. lia.
      * destruct (Z.leb_spec n (num_pages p)); [|lia]. apply page_in_range. lia.
  - apply page_in_range. lia.
Qed.

Lemma paginate_number (posts : list (Obj Post.t)) (request : Request) :
  ∃ pg, paginate py_int posts request = Return pg
    ∧ listing_page posts pg ∧ shown_number py_int request pg.
Proof.
  destruct (paginate_spec py_int posts request) as (pg & Hpg & Hl).
  exists pg. split; [done|]. split; [done|].
  unfold paginate in Hpg.
  destruct (get_page_number {| object_list := posts; per_page := LIMIT_POSTS |}
              (page_param request)) as (pg' & Hpg' & Hp & Hn); [done|].
  rewrite Hpg in Hpg'. injection Hpg' as <-.
  unfold shown_number. rewrite Hn, Hp. unfold page_param.
  by destruct (GET request !! "page").
Qed.

(** X1. The page of a listing for the [page] parameter: the page of that
    number when the parameter reads as the number of a page, the first
    page when the parameter is absent or not a number, and the last page
    when the number is below 1 or above the number of pages. *)
Theorem listings_page_number (request : Request) (w : World) :
  (∃ pg,
     index py_int request w
     = (Return (render "blog/index.html" [("page_obj", VPage pg)]), w)
     ∧ shown_number py_int request pg)
  ∧ (∀ category_slug category,
       get_object_or_404 (published_categories_by_slug w category_slug)
       = Return category →
       ∃ pg,
         category_posts py_int request category_slug w
         = (Return (render "blog/category.html"
                      [("category", VCategory category);
                       ("page_obj", VPage pg)]), w)
         ∧ shown_number py_int request pg)
  ∧ (∀ username profile,
       get_object_or_404 (users_by_username w username) = Return profile →
       ∃ pg,
         profile_view py_int request username w
         = (Return (render "blog/profile.html"
                      [("profile", VUser profile); ("page_obj", VPage pg)]), w)
         ∧ shown_number py_int request pg).
Proof.
  split; [|split].
  - unfold index. run.
    match goal with |- context [paginate py_int ?l request] =>
      destruct (paginate_number l request) as (pg & Hpg & _ & Hn) end.
    rewrite Hpg. eauto.
  - intros category_slug category Hc. unfold category_posts. run. rewrite Hc.
    match goal with |- context [paginate py_int ?l request] =>
      destruct (paginate_number l request) as (pg & Hpg & _ & Hn) end.
    rewrite Hpg. eauto.
  - intros username profile Hu. unfold profile_view. run. rewrite Hu.
    match goal with |- context [paginate py_int ?l request] =>
      destruct (paginate_number l request) as (pg & Hpg & _ & Hn) end.
    rewrite Hpg. eauto.
Qed.

(** Every post of a listing is on one of its pages. *)
Lemma on_some_page (posts : list (Obj Post.t)) (p : Obj Post.t) :
  p ∈ posts →
  ∃ n, 1 ≤ n ≤ num_pages {| object_list := posts; per_page := LIMIT_POSTS |}
    ∧ p ∈ take 10 (drop (Z.to_nat ((n - 1) * 10)) posts).
Proof.
  intros [i Hi]%list_elem_of_lookup_1.
  pose proof (lookup_lt_Some _ _ _ Hi) as Hlt.
  pose proof (Nat.div_mod_eq i 10) as Hdm.
  pose proof (Nat.mod_upper_bound i 10 ltac:(done)) as Hr.
  exists (Z.of_nat (i `div` 10) + 1). split.
  - split; [lia|]. unfold num_pages, count, LIMIT_POSTS.
    cbn [object_list per_page].
    assert (Hh : Z.of_nat (length posts) ≤ Z.max 1 (Z.of_nat (length posts) - 0))
      by lia.
    revert Hh. generalize (Z.max 1 (Z.of_nat (length posts) - 0)). intros h Hh.
    pose proof (Z.mod_pos_bound (- h) 10 ltac:(done)).
    pose proof (Z.div_mod (- h) 10 ltac:(done)). lia.
  - apply list_elem_of_lookup. exists (i `mod` 10)%nat.
    rewrite lookup_take_lt by done. rewrite lookup_drop.
    rewrite <- Hi. f_equal. lia.
Qed.

Lemma listing_page_paginator (posts : list (Obj Post.t)) (pg : Page.t) :
  listing_page posts pg →
  Page.paginator pg = {| object_list := posts; per_page := LIMIT_POSTS |}.
Proof.
  intros (H1 & H2 & _). destruct (Page.paginator pg). simpl in *. by subst.
Qed.

(** The posts the index lists: the visible posts of the store, in
    descending order of publish date. *)
Lemma index_render (request : Request) (w : World) :
  ∃ pg,
    index py_int request w
    = (Return (render "blog/index.html" [("page_obj", VPage pg)]), w)
    ∧ listing_page
        (order_by_pub_date_desc
           (filter (λ p, publicly_visible w (now w) p) (all (posts w)))) pg
    ∧ shown_number py_int request pg.
Proof.
  unfold index. run.
  match goal with |- context [paginate py_int ?l request] =>
    destruct (paginate_number l request) as (pg & Hpg & Hl & Hn) end.
  rewrite Hpg. eauto.
Qed.

Lemma index_listed (w : World) (p : Obj Post.t) :
  p ∈ order_by_pub_date_desc
        (filter (λ p, publicly_visible w (now w) p) (all (posts w)))
  ↔ posts w !! pk p = Some (row p) ∧ visible_in w p.
Proof.
  rewrite order_by_elem_of, list_elem_of_filter, elem_of_all.
  rewrite Is_true_true, publicly_visible_spec.
  split; intros [? ?]; done.
Qed.

(** X2. The listing the index pages through holds every publicly visible
    post of the store, each once, and nothing else. *)
Theorem index_lists_every_visible_post (request : Request) (w : World) :
  ∃ pg,
    index py_int request w
    = (Return (render "blog/index.html" [("page_obj", VPage pg)]), w)
    ∧ NoDup (object_list (Page.paginator pg))
    ∧ ∀ p, p ∈ object_list (Page.paginator pg) ↔
           posts w !! pk p = Some (row p) ∧ visible_in w p.
Proof.
  destruct (index_render request w) as (pg & H1 & H2 & _).
  exists pg. split; [done|]. destruct H2 as (-> & _). split.
  - apply order_by_NoDup, NoDup_filter, NoDup_map_to_list.
  - apply index_listed.
Qed.

(** X3. Every publicly visible post is on a page of the index: there is a
    page number such that every request whose [page] parameter reads as
    that number is answered by that page, with the post on it. *)
Theorem index_visible_post_on_a_page (w : World) (p : Obj Post.t) :
  posts w !! pk p = Some (row p) →
  visible_in w p →
  ∃ n, 1 ≤ n
    ∧ ∀ request, GET request !! "page" ≫= py_int = Some n →
        ∃ pg,
          index py_int request w
          = (Return (render "blog/index.html" [("page_obj", VPage pg)]), w)
          ∧ Page.number pg = n
          ∧ p ∈ Page.object_list pg.
Proof.
  intros Hp Hv.
  assert (Hin : p ∈ order_by_pub_date_desc
             (filter (λ p, publicly_visible w (now w) p) (all (posts w))))
    by by apply index_listed.
  destruct (on_some_page _ p Hin) as (n & Hn & Hpage).
  exists n. split; [lia|]. intros request Hreq.
  destruct (index_render request w) as (pg & E1 & E2 & E3).
  exists pg. split; [done|].
  pose proof (listing_page_paginator _ _ E2) as Hpag.
  unfold shown_number in E3. rewrite Hreq, Hpag in E3.
  destruct (Z.leb_spec 1 n); [|lia].
  destruct (Z.leb_spec n
    (num_pages {| object_list := order_by_pub_date_desc
                    (filter (λ p, publicly_visible w (now w) p) (all (posts w)));
                  per_page := LIMIT_POSTS |})); [|lia].
  simpl in E3. split; [done|].
  destruct E2 as (_ & _ & _ & -> & _). by rewrite E3.
Qed.

(** X4. When some post is publicly visible, the page the index shows is
    not empty, whatever the [page] parameter. *)
Theorem index_page_not_empty (request : Request) (w : World) (p : Obj Post.t) :
  posts w !! pk p = Some (row p) →
  visible_in w p →
  ∃ pg,
    index py_int request w
    = (Return (render "blog/index.html" [("page_obj", VPage pg)]), w)
    ∧ Page.object_list pg ≠ [].
Proof.
  intros Hp Hv.
  destruct (index_render request w) as (pg & H1 & H2 & _).
  exists pg. split; [done|].
  assert (Hin : p ∈ order_by_pub_date_desc
             (filter (λ p, publicly_visible w (now w) p) (all (posts w))))
    by by apply index_listed.
  clear Hp. revert H2 Hin. generalize (order_by_pub_date_desc
    (filter (λ p, publicly_visible w (now w) p) (all (posts w)))).
  intros listed H2 Hin.
  pose proof (listing_page_paginator _ _ H2) as Hpag.
  destruct H2 as (_ & _ & Hn & -> & _). rewrite Hpag in Hn.
  pose proof (num_pages_bottom
    {| object_list := listed; per_page := LIMIT_POSTS |} _ eq_refl Hn) as Hb.
  unfold count, LIMIT_POSTS in Hb. cbn [object_list per_page] in Hb.
  intros He. apply (f_equal length) in He.
  rewrite length_take, length_drop in He.
  destruct listed; [by apply elem_of_nil in Hin|]. cbn [length] in *. lia.
Qed.

(** ** The category and the profile listings *)

Lemma filter_singleton {A} (P : A → Prop) `{∀ x, Decision (P x)}
    (l : list A) (x : A) :
  NoDup l → x ∈ l → P x → (∀ y, y ∈ l → P y → y = x) → filter P l = [x].
Proof.
  intros Hnd Hx HP Hall.
  assert (Hin : x ∈ filter P l) by by apply list_elem_of_filter.
  assert (Hnd' : NoDup (filter P l)) by by apply NoDup_filter.
  assert (Hall' : ∀ y, y ∈ filter P l → y = x).
  { intros y [? ?]%list_elem_of_filter. by apply Hall. }
  destruct (filter P l) as [|a [|b k]].
  - by apply elem_of_nil in Hin.
  - f_equal. apply Hall'. left.
  - assert (a = x) by (apply Hall'; left).
    assert (b = x) by (apply Hall'; right; left).
    subst. apply NoDup_cons in Hnd' as [Hnd' _]. exfalso. apply Hnd'. left.
Qed.

(** X5. The category listing of the published category with the slug of
    the request (no other published category having that slug): the listed
    posts are exactly the posts of the store in that category that are
    published and not dated after the current time, in descending order of
    publish date, and every post on the page is publicly visible. *)
Theorem category_posts_listing
    (request : Request) (category_slug : string) (w : World)
    (category : Obj Category.t) :
  categories w !! pk category = Some (row category) →
  Category.slug (row category) = category_slug →
  Category.is_published (row category) = true →
  (∀ k c, categories w !! k = Some c → Category.slug c = category_slug →
          Category.is_published c = true → k = pk category) →
  ∃ pg,
    category_posts py_int request category_slug w
    = (Return (render "blog/category.html"
                 [("category", VCategory category); ("page_obj", VPage pg)]), w)
    ∧ StronglySorted pub_date_desc (object_list (Page.paginator pg))
    ∧ (∀ p, p ∈ object_list (Page.paginator pg) ↔
            posts w !! pk p = Some (row p)
            ∧ Post.category (row p) = pk category
            ∧ Post.is_published (row p) = true
            ∧ Post.pub_date (row p) ≤ now w)
    ∧ (∀ p, p ∈ Page.object_list pg → visible_in w p).
Proof.
  intros Hc Hslug Hpub Huniq.
  assert (Hget : published_categories_by_slug w category_slug = [category]).
  { unfold published_categories_by_slug. apply filter_singleton.
    - apply NoDup_map_to_list.
    - by apply elem_of_all.
    - done.
    - intros [k c] Hin%elem_of_all [Hs Hp]. unfold pk, row in *. simpl in *.
      pose proof (Huniq k c Hin Hs Hp) as ->.
      destruct category as [k' c']. simpl in *. congruence. }
  unfold category_posts. run. rewrite Hget. simpl.
  match goal with |- context [paginate py_int ?l request] =>
    destruct (paginate_spec py_int l request) as (pg & Hpg & Hl);
    set (listed := l) in * end.
  rewrite Hpg. exists pg. split; [done|].
  assert (Hlisted : ∀ p, p ∈ listed ↔
            posts w !! pk p = Some (row p)
            ∧ Post.category (row p) = pk category
            ∧ Post.is_published (row p) = true
            ∧ Post.pub_date (row p) ≤ now w).
  { intros p. subst listed.
    rewrite order_by_elem_of, !list_elem_of_filter, elem_of_all.
    split; [intros ((? & ?) & ? & ?)|intros (? & ? & ? & ?)]; done. }
  destruct Hl as (Ho & Hrest). rewrite Ho.
  split; [apply order_by_sorted|]. split; [done|].
  intros p Hp. eapply listing_page_elem_of in Hp; [|by split].
  apply Hlisted in Hp as (_ & Hcat & Hp1 & Hp2).
  split; [done|]. split; [|done]. exists (row category). by rewrite Hcat.
Qed.

(** X6. A listing is "not found" exactly when its lookup finds nothing:
    the category listing when no published category of the store has the
    slug, the profile listing when no user of the store has the name. *)
Theorem listings_not_found (request : Request) (w : World) :
  (∀ category_slug,
     (category_posts py_int request category_slug w).1 = Raise Http404
     ↔ ∀ k c, categories w !! k = Some c →
              Category.slug c = category_slug → Category.is_published c = false)
  ∧ (∀ username,
       (profile_view py_int request username w).1 = Raise Http404
       ↔ ∀ k u, users w !! k = Some u → User.username u ≠ username).
Proof.
  split.
  - intros category_slug. unfold category_posts. run.
    destruct (published_categories_by_slug w category_slug) as [|a [|b l]] eqn:E.
    + simpl. split; [|done]. intros _ k c Hk Hs.
      destruct (Category.is_published c) eqn:Hp; [|done].
      assert (Hin : (k, c) ∈ published_categories_by_slug w category_slug).
      { apply list_elem_of_filter. split; [done|]. by apply elem_of_all. }
      rewrite E in Hin. by apply elem_of_nil in Hin.
    + simpl.
      match goal with |- context [paginate py_int ?l request] =>
        destruct (paginate_spec py_int l request) as (pg & Hpg & _) end.
      rewrite Hpg. simpl. split; [done|]. intros H.
      assert (Hin : a ∈ published_categories_by_slug w category_slug)
        by (rewrite E; left).
      apply list_elem_of_filter in Hin as [[Hs Hp] Hin%elem_of_all].
      rewrite (H _ _ Hin Hs) in Hp. done.
    + simpl. split; [done|]. intros H.
      assert (Hin : a ∈ published_categories_by_slug w category_slug)
        by (rewrite E; left).
      apply list_elem_of_filter in Hin as [[Hs Hp] Hin%elem_of_all].
      rewrite (H _ _ Hin Hs) in Hp. done.
  - intros username. unfold profile_view. run.
    destruct (users_by_username w username) as [|a [|b l]] eqn:E.
    + simpl. split; [|done]. intros _ k u Hk Hn.
      assert (Hin : (k, u) ∈ users_by_username w username).
      { apply list_elem_of_filter. split; [done|]. by apply elem_of_all. }
      rewrite E in Hin. by apply elem_of_nil in Hin.
    + simpl.
      match goal with |- context [paginate py_int ?l request] =>
        destruct (paginate_spec py_int l request) as (pg & Hpg & _) end.
      rewrite Hpg. simpl. split; [done|]. intros H.
      assert (Hin : a ∈ users_by_username w username) by (rewrite E; left).
      apply list_elem_of_filter in Hin as [Hn Hin%elem_of_all].
      by destruct (H _ _ Hin).
    + simpl. split; [done|]. intros H.
      assert (Hin : a ∈ users_by_username w username) by (rewrite E; left).
      apply list_elem_of_filter in Hin as [Hn Hin%elem_of_all].
      by destruct (H _ _ Hin).
Qed.

(** ** The post detail *)

(** X7. The detail lookup, the category of the post being a row of the
    store: it is "not found" exactly when no post has the id, or the viewer
    is not the author and the post or its category is not published; the
    world is left as it was. *)
Theorem PostDetailView_not_found_iff
    (request : Request) (post_id : nat) (w : World) :
  (∀ p, posts w !! post_id = Some p →
        is_Some (categories w !! Post.category p)) →
  ((PostDetailView_get_object request post_id w).1 = Raise Http404
   ↔ posts w !! post_id = None
     ∨ ∃ p c, posts w !! post_id = Some p
         ∧ categories w !! Post.category p = Some c
         ∧ is_user (user request) (Post.author p) = false
         ∧ (Post.is_published p = false ∨ Category.is_published c = false))
  ∧ (PostDetailView_get_object request post_id w).2 = w.
Proof.
  intros Hcat. unfold PostDetailView_get_object. run.
  destruct (posts w !! post_id) as [p|] eqn:Hp.
  - destruct (Hcat p eq_refl) as [c Hc].
    rewrite (get_by_pk_Some _ _ _ Hp). simpl.
    destruct (is_user (user request) (Post.author p)) eqn:Hu; simpl.
    + split; [|done]. split; [done|].
      intros [?|(p' & c' & [= <-] & _ & ? & _)]; congruence.
    + destruct (Post.is_published p) eqn:Hpub; simpl.
      * unfold related_category. rewrite Hc.
        destruct (Category.is_published c) eqn:Hcp; simpl.
        -- split; [|done]. split; [done|].
           intros [?|(p' & c' & [= <-] & Hc' & _ & [?|?])]; [done|congruence|].
           rewrite Hc in Hc'. injection Hc' as <-. congruence.
        -- split; [|done]. split; [|done]. intros _. right.
           exists p, c. auto.
      * split; [|done]. split; [|done]. intros _. right.
        exists p, c. auto.
  - rewrite (get_by_pk_None _ _ Hp). simpl. split; [|done].
    split; [auto|done].
Qed.

(** The detail page of a post the viewer may see. *)
Lemma PostDetailView_get_run
    (request : Request) (post_id : nat) (w : World) (p : Post.t) :
  method request = "GET" →
  posts w !! post_id = Some p →
  is_user (user request) (Post.author p) = true
  ∨ (Post.is_published p = true
     ∧ ∃ c, categories w !! Post.category p = Some c
            ∧ Category.is_published c = true) →
  ∃ cs,
    PostDetailView py_int request post_id w
    = (Return (render "blog/detail.html"
                 [("object", VPost (post_id, p)); ("post", VPost (post_id, p));
                  ("form", VForm (unbound_form ∅));
                  ("comments", VComments cs)]), w)
    ∧ ∀ c, c ∈ cs ↔ comments w !! pk c = Some (row c)
                     ∧ Comment.post (row c) = post_id.
Proof.
  intros Hm Hp Hcase.
  assert (Hobj : PostDetailView_get_object request post_id w
                 = (Return (post_id, p), w)).
  { unfold PostDetailView_get_object. run.
    rewrite (get_by_pk_Some _ _ _ Hp). simpl.
    destruct Hcase as [->|(Hpub & c & Hc & Hcp)]; [done|].
    destruct (is_user _ _); [done|]. simpl. rewrite Hpub. simpl.
    unfold related_category. rewrite Hc. simpl. by rewrite Hcp. }
  unfold PostDetailView, View_dispatch. rewrite Hm. simpl.
  unfold PostDetailView_get. unfold mbind at 1. unfold M_bind.
  rewrite Hobj. unfold PostDetailView_get_context_data. run.
  eexists. split; [reflexivity|].
  intros c. rewrite list_elem_of_filter, elem_of_all.
  split; intros [? ?]; done.
Qed.

(** X8. A GET of the detail page of a post by its author, or by any viewer
    when the post and its category are published, renders the post, an
    empty comment form and exactly the comments of the store on that post;
    the publish date of the post is not looked at and the world is left as
    it was. *)
Theorem PostDetailView_renders
    (request : Request) (post_id : nat) (w : World) (p : Post.t) :
  method request = "GET" →
  posts w !! post_id = Some p →
  is_user (user request) (Post.author p) = true
  ∨ (Post.is_published p = true
     ∧ ∃ c, categories w !! Post.category p = Some c
            ∧ Category.is_published c = true) →
  ∃ cs,
    PostDetailView py_int request post_id w
    = (Return (render "blog/detail.html"
                 [("object", VPost (post_id, p)); ("post", VPost (post_id, p));
                  ("form", VForm (unbound_form ∅));
                  ("comments", VComments cs)]), w)
    ∧ ∀ c, c ∈ cs ↔ comments w !! pk c = Some (row c)
                     ∧ Comment.post (row c) = post_id.
Proof. apply PostDetailView_get_run. Qed.

(** ** The gates *)

(** X9. The update view looks the post up and compares its author with
    the viewer before the login gate: for every viewer a missing post is
    "not found"; an anonymous viewer of an existing post is redirected to
    the detail page of the post, not to the login page; the author is
    handed to the generic edit view.  In the first two cases the world is
    left as it was. *)
Theorem PostUpdateView_dispatch_cases
    (request : Request) (post_id : nat) (w : World) :
  (posts w !! post_id = None →
     PostUpdateView_dispatch UpdateView_dispatch request post_id w
     = (Raise Http404, w))
  ∧ (∀ p, posts w !! post_id = Some p → user request = None →
       PostUpdateView_dispatch UpdateView_dispatch request post_id w
       = (Return (redirect (blog_post_detail post_id)), w))
  ∧ (∀ p u, posts w !! post_id = Some p → user request = Some u →
       Post.author p = pk u →
       PostUpdateView_dispatch UpdateView_dispatch request post_id w
       = UpdateView_dispatch request post_id w).
Proof.
  unfold PostUpdateView_dispatch, PostUpdateView_get_object. run.
  split; [|split].
  - intros Hp. by rewrite (get_by_pk_None _ _ Hp).
  - intros p Hp Hu. rewrite (get_by_pk_Some _ _ _ Hp). simpl. by rewrite Hu.
  - intros p u Hp Hu Ha. rewrite (get_by_pk_Some _ _ _ Hp). simpl.
    rewrite Hu, is_user_true_eq by done. done.
Qed.

(** X10. An anonymous viewer is sent to the login page by the password
    change, the post creation and deletion and the three comment handlers,
    for every method and every submitted data, and the world is left as it
    was. *)
Theorem anonymous_sent_to_login
    (request : Request) (username : string) (post_id comment_id : nat)
    (w : World) :
  user request = None →
  password_change_view request username w = (Return (redirect LOGIN_URL), w)
  ∧ PostCreateView py_int parse_datetime request w
    = (Return (redirect LOGIN_URL), w)
  ∧ delete_post Comment_post_on_delete request post_id w
    = (Return (redirect LOGIN_URL), w)
  ∧ add_comment py_int request post_id w = (Return (redirect LOGIN_URL), w)
  ∧ edit_comment py_int request post_id comment_id w
    = (Return (redirect LOGIN_URL), w)
  ∧ delete_comment request post_id comment_id w
    = (Return (redirect LOGIN_URL), w).
Proof.
  intros Hu.
  unfold password_change_view, PostCreateView, delete_post, add_comment,
    edit_comment, delete_comment, login_required.
  rewrite Hu. done.
Qed.

(** ** Comments *)

(** The comment form cleans the text field and nothing else. *)
Lemma CommentForm_bound (w : World) (data : gmap string string)
    (inst : gmap string FieldValue) :
  CommentForm py_int w (Some data) inst
  = match CharField_clean (data !! "text") with
    | inl msg =>
        {| is_bound := true; instance := ∅ ∪ inst;
           errors := [("text", msg)]; cleaned_data := ∅ |}
    | inr v =>
        {| is_bound := true; instance := <["text" := v]> ∅ ∪ inst;
           errors := []; cleaned_data := <["text" := v]> ∅ |}
    end.
Proof.
  unfold CommentForm, ModelForm, full_clean.
  rewrite CommentForm_fields_eq. simpl.
  by destruct (CharField_clean (data !! "text")).
Qed.

Lemma Comment_of_attrs_edit (c : Comment.t) (text : string) :
  Comment_of_attrs (<["text" := VStr text]> ∅ ∪ Comment_to_attrs c)
  = Some (Comment.set_text c text).
Proof. reflexivity. Qed.

Lemma CharField_clean_cases (raw : option string) :
  (∃ msg, CharField_clean raw = inl msg)
  ∨ (∃ text, CharField_clean raw = inr (VStr text)).
Proof.
  unfold CharField_clean. destruct (_ =? _)%string; [eauto|].
  destruct (has_null _); eauto.
Qed.

Lemma POST_or_None_Some (request : Request) (text : string) :
  CharField_clean (POST request !! "text") = inr (VStr text) →
  POST_or_None request = Some (POST request).
Proof.
  intros H. unfold POST_or_None. case_bool_decide as He; [|done].
  rewrite He, lookup_empty in H. done.
Qed.

(** [add_comment] on a text that cleans. *)
Lemma add_comment_run
    (request : Request) (post_id : nat) (w : World)
    (u : Obj User.t) (p : Post.t) (text : string) :
  user request = Some u →
  posts w !! post_id = Some p →
  CharField_clean (POST request !! "text") = inr (VStr text) →
  add_comment py_int request post_id w
  = (Return (redirect (blog_post_detail post_id)),
     set_comments
       (λ t, <[next_pk (comments w)
               := Comment.Build text (pk u) post_id (now w)]> t) w)
  ∧ comments w !! next_pk (comments w) = None.
Proof.
  intros Hu Hp Ht. split; [|apply next_pk_fresh].
  unfold add_comment. run. rewrite Hu. simpl.
  rewrite (get_by_pk_Some _ _ _ Hp). simpl.
  rewrite (POST_or_None_Some _ _ Ht), CommentForm_bound, Ht. simpl.
  unfold save_new_comment. run. done.
Qed.

(** X11. A comment submitted by an authenticated viewer on an existing
    post, with a text that cleans, is stored under a fresh key with the
    stripped text, the viewer as author, the post of the request and the
    current time; the other comments stay and the answer is the redirect to
    the detail page of the post.  The post is not checked for visibility
    and the method is not looked at. *)
Theorem add_comment_stores_comment
    (request : Request) (post_id : nat) (w : World)
    (u : Obj User.t) (p : Post.t) (text : string) :
  user request = Some u →
  posts w !! post_id = Some p →
  CharField_clean (POST request !! "text") = inr (VStr text) →
  add_comment py_int request post_id w
  = (Return (redirect (blog_post_detail post_id)),
     set_comments
       (λ t, <[next_pk (comments w)
               := Comment.Build text (pk u) post_id (now w)]> t) w)
  ∧ comments w !! next_pk (comments w) = None.
Proof. apply add_comment_run. Qed.

(** X12. For an authenticated viewer, [add_comment] on a missing post is
    "not found"; on an existing post, published or not, with an empty
    submission or a text that does not clean, it renders the detail page
    with that post, the invalid form and exactly the comments of the post,
    and the world is left as it was. *)
Theorem add_comment_without_valid_text
    (request : Request) (post_id : nat) (w : World) (u : Obj User.t) :
  user request = Some u →
  (posts w !! post_id = None →
     add_comment py_int request post_id w = (Raise Http404, w))
  ∧ (∀ p, posts w !! post_id = Some p →
       (∀ text, CharField_clean (POST request !! "text") ≠ inr (VStr text)) →
       ∃ form cs,
         add_comment py_int request post_id w
         = (Return (render "blog/detail.html"
                      [("post", VPost (post_id, p)); ("form", VForm form);
                       ("comments", VComments cs)]), w)
         ∧ is_valid form = false
         ∧ ∀ c, c ∈ cs ↔ comments w !! pk c = Some (row c)
                          ∧ Comment.post (row c) = post_id).
Proof.
  intros Hu. unfold add_comment. run. rewrite Hu. simpl. split.
  - intros Hp. by rewrite (get_by_pk_None _ _ Hp).
  - intros p Hp Hbad. rewrite (get_by_pk_Some _ _ _ Hp). simpl.
    assert (Hv : is_valid (CommentForm py_int w (POST_or_None request) ∅) = false).
    { unfold POST_or_None. case_bool_decide; [done|].
      rewrite CommentForm_bound.
      destruct (CharField_clean_cases (POST request !! "text"))
        as [[msg ->]|[text Ht]]; [done|].
      by destruct (Hbad text). }
    rewrite Hv. eexists _, _. split; [reflexivity|]. split; [done|].
    intros c. rewrite list_elem_of_filter, elem_of_all.
    split; intros [? ?]; done.
Qed.

(** X13. Whatever the request, [edit_comment] leaves the users, the
    posts, the categories, the session and every other comment as they
    were, never creates a comment, and never changes the author, the post
    or the creation time of the comment it edits. *)
Theorem edit_comment_frame
    (request : Request) (post_id comment_id : nat) (w : World) :
  users (edit_comment py_int request post_id comment_id w).2 = users w
  ∧ posts (edit_comment py_int request post_id comment_id w).2 = posts w
  ∧ categories (edit_comment py_int request post_id comment_id w).2
    = categories w
  ∧ session (edit_comment py_int request post_id comment_id w).2 = session w
  ∧ (∀ k, k ≠ comment_id →
       comments (edit_comment py_int request post_id comment_id w).2 !! k
       = comments w !! k)
  ∧ (∀ c', comments (edit_comment py_int request post_id comment_id w).2
             !! comment_id = Some c' →
       ∃ c, comments w !! comment_id = Some c
         ∧ Comment.author c' = Comment.author c
         ∧ Comment.post c' = Comment.post c
         ∧ Comment.created_at c' = Comment.created_at c).
Proof.
  unfold edit_comment. run.
  destruct (is_authenticated (user request)); [|simpl; by eauto 10].
  unfold get_by_pk.
  destruct (comments w !! comment_id) as [c|] eqn:Hc;
    [|simpl; rewrite Hc; by eauto 10].
  simpl.
  destruct (is_user _ _); simpl; [|rewrite Hc; by eauto 10].
  destruct (_ =? _)%string; [|simpl; rewrite Hc; by eauto 10].
  rewrite CommentForm_bound.
  destruct (CharField_clean_cases (POST request !! "text"))
    as [[msg ->]|[text ->]]; [simpl; rewrite Hc; by eauto 10|].
  simpl. unfold save_comment. run. rewrite Comment_of_attrs_edit. simpl.
  repeat split; try done.
  - intros k Hk. by rewrite lookup_insert_ne.
  - intros c'. rewrite lookup_insert_eq. intros [= <-]. by exists c.
Qed.

(** X14. [edit_comment] reads the submitted data at the key [text] only:
    two requests of the same viewer and method whose data agree at that key
    have the same outcome, whatever author or post they submit. *)
Theorem edit_comment_reads_text_only
    (request request' : Request) (post_id comment_id : nat) (w : World) :
  user request' = user request →
  method request' = method request →
  POST request' !! "text" = POST request !! "text" →
  edit_comment py_int request' post_id comment_id w
  = edit_comment py_int request post_id comment_id w.
Proof.
  intros Hu Hm Ht. unfold edit_comment. run. rewrite Hu, Hm.
  destruct (is_authenticated _); [|done].
  destruct (get_object_or_404 _) as [comment|e]; [|done]. simpl.
  destruct (is_user _ _); [|done]. simpl.
  destruct (_ =? _)%string; [|done].
  by rewrite !CommentForm_bound, Ht.
Qed.

(** X15. For the author of a comment, a request to [edit_comment] that is
    not a POST, or a POST whose text does not clean, renders the edit page
    with the stored comment and the editing flag, and the world is left as
    it was. *)
Theorem edit_comment_shows_form
    (request : Request) (post_id comment_id : nat) (w : World)
    (u : Obj User.t) (c : Comment.t) :
  user request = Some u →
  comments w !! comment_id = Some c →
  Comment.author c = pk u →
  method request ≠ "POST"
  ∨ (∀ text, CharField_clean (POST request !! "text") ≠ inr (VStr text)) →
  ∃ form,
    edit_comment py_int request post_id comment_id w
    = (Return (render "blog/comment.html"
                 [("form", VForm form); ("comment", VComment (comment_id, c));
                  ("is_edit", VTrue)]), w)
    ∧ is_valid form = false.
Proof.
  intros Hu Hc Ha Hcase. unfold edit_comment. run. rewrite Hu. simpl.
  rewrite (get_by_pk_Some _ _ _ Hc). simpl.
  rewrite is_user_true_eq by done. simpl.
  destruct (String.eqb_spec (method request) "POST") as [Hm|Hm].
  - destruct Hcase as [?|Hbad]; [done|].
    rewrite CommentForm_bound.
    destruct (CharField_clean_cases (POST request !! "text"))
      as [[msg ->]|[text Ht]]; [|by destruct (Hbad text)].
    eexists. split; [reflexivity|done].
  - eexists. split; [reflexivity|done].
Qed.

(** X16. Whatever the request, [delete_comment] either leaves the world as
    it was or removes the one comment of the id of the request and nothing
    else; for the author a request that is not a POST renders the
    confirmation page and removes nothing. *)
Theorem delete_comment_frame
    (request : Request) (post_id comment_id : nat) (w : World) :
  ((delete_comment request post_id comment_id w).2 = w
   ∨ (delete_comment request post_id comment_id w).2
     = set_comments (λ t, delete comment_id t) w)
  ∧ (∀ u c, user request = Some u → comments w !! comment_id = Some c →
       Comment.author c = pk u → method request ≠ "POST" →
       delete_comment request post_id comment_id w
       = (Return (render "blog/comment.html"
                    [("comment", VComment (comment_id, c));
                     ("is_delete", VTrue)]), w)).
Proof.
  unfold delete_comment. run. split.
  - destruct (is_authenticated _); [|by left].
    unfold get_by_pk. destruct (comments w !! comment_id); [|by left]. simpl.
    destruct (is_user _ _); [|by left]. simpl.
    destruct (_ =? _)%string; [by right|by left].
  - intros u c Hu Hc Ha Hm. rewrite Hu. simpl.
    rewrite (get_by_pk_Some _ _ _ Hc). simpl.
    rewrite is_user_true_eq by done. simpl.
    apply String.eqb_neq in Hm. by rewrite Hm.
Qed.

(** ** Post creation, continued *)

(** A field that fails leaves an error. *)
Lemma _clean_fields_error (w : World) (fields : list (string * Field))
    (data : gmap string string) (name : string) (field : Field) (msg : string) :
  (name, field) ∈ fields →
  clean field w (data !! name) = inl msg →
  (_clean_fields w fields data).1 ≠ [].
Proof.
  induction fields as [|[n f] rest IH]; intros Hin Hc.
  - by apply elem_of_nil in Hin.
  - simpl. destruct (_clean_fields w rest data) as [errs cleaned] eqn:E.
    apply elem_of_cons in Hin as [[= <- <-]|Hin].
    + by rewrite Hc.
    + destruct (clean f w (data !! n)); [done|]. simpl. by apply IH.
Qed.

(** X17. A POST to the post creation by an authenticated viewer whose five
    form fields clean stores one new post, under a fresh key, with the
    cleaned title, body, publish date, published flag and category and the
    viewer as author, and redirects to the viewer's profile. *)
Theorem PostCreateView_valid_submission_stored
    (request : Request) (w : World) (u : Obj User.t)
    (title body : string) (pub_date : Z) (is_published : bool) (category : nat) :
  user request = Some u →
  method request = "POST" →
  CharField_clean (POST request !! "title") = inr (VStr title) →
  CharField_clean (POST request !! "body") = inr (VStr body) →
  clean (DateTimeField parse_datetime) w (POST request !! "pub_date")
  = inr (VDateTime pub_date) →
  BooleanField_clean (POST request !! "is_published") = inr (VBool is_published) →
  clean (ModelChoiceField py_int categories) w (POST request !! "category")
  = inr (VRef category) →
  PostCreateView py_int parse_datetime request w
  = (Return (redirect (blog_profile (User.username (row u)))),
     set_posts
       (λ t, <[next_pk (posts w)
               := Post.Build title body pub_date is_published (pk u) category]> t)
       w)
  ∧ posts w !! next_pk (posts w) = None.
Proof. apply PostCreateView_post_run. Qed.

(** X18. A POST to the post creation in which a field of the form fails to
    clean (a missing title, a date that does not parse, a category that is
    not in the store) shows the form again, invalid, and stores nothing. *)
Theorem PostCreateView_invalid_submission
    (request : Request) (w : World) (u : Obj User.t)
    (name : string) (field : Field) (msg : string) :
  user request = Some u →
  method request = "POST" →
  (name, field) ∈ PostForm_fields py_int parse_datetime →
  clean field w (POST request !! name) = inl msg →
  ∃ form,
    PostCreateView py_int parse_datetime request w
    = (Return (render "blog/create.html" [("form", VForm form)]), w)
    ∧ is_valid form = false.
Proof.
  intros Hu Hm Hin Hc.
  unfold PostCreateView, View_dispatch. run. rewrite Hu, Hm. simpl.
  unfold PostCreateView_post. run.
  assert (Hv : is_valid (PostForm py_int parse_datetime w
                           (Some (POST request)) ∅) = false).
  { unfold PostForm, ModelForm, full_clean.
    pose proof (_clean_fields_error w _ (POST request) name field msg Hin Hc)
      as Herr.
    destruct (_clean_fields w _ (POST request)) as [errs cleaned].
    unfold is_valid. simpl in *. by rewrite bool_decide_eq_false_2. }
  rewrite Hv. eauto.
Qed.

(** ** Password change, continued *)

Lemma unique_usernames_set_password (w w' : World) (k : nat) (u0 : User.t)
    (raw_password : string) :
  users w !! k = Some u0 →
  users w' = <[k := User.set_password u0 raw_password]> (users w) →
  unique_usernames w → unique_usernames w'.
Proof.
  intros Hk Hw'. unfold unique_usernames, all. rewrite Hw'.
  rewrite <- insert_delete_eq.
  rewrite map_to_list_insert by apply lookup_delete_eq.
  rewrite <- (map_to_list_delete (users w) k u0 Hk). done.
Qed.

(** X19. Whatever the method and the submitted data, the password change
    of an authenticated viewer leaves the posts, the comments, the
    categories and the account of every other user as they were; the
    viewer's account is as it was or is the viewer's with a new password,
    under the same user name, so that user names stay unique.  The user
    name in the address of the request plays no part. *)
Theorem password_change_view_frame
    (request : Request) (username : string) (w : World) (u : Obj User.t)
    (response : Result HttpResponse) (w' : World) :
  user request = Some u →
  password_change_view request username w = (response, w') →
  posts w' = posts w ∧ comments w' = comments w ∧ categories w' = categories w
  ∧ (∀ k, k ≠ pk u → users w' !! k = users w !! k)
  ∧ (users w' = users w
     ∨ ∃ raw_password,
         users w' = <[pk u := User.set_password (row u) raw_password]> (users w))
  ∧ (viewer_in_store request w → unique_usernames w → unique_usernames w')
  ∧ ∀ username', password_change_view request username' w = (response, w').
Proof.
  intros Hu Hrun.
  assert (Hany : ∀ username',
            password_change_view request username' w = (response, w')).
  { intros username'. rewrite <- Hrun. reflexivity. }
  assert (Hcase : w' = w
    ∨ ∃ raw_password,
        posts w' = posts w ∧ comments w' = comments w
        ∧ categories w' = categories w
        ∧ users w' = <[pk u := User.set_password (row u) raw_password]> (users w)).
  { revert Hrun. unfold password_change_view. run. rewrite Hu. simpl.
    destruct (_ =? _)%string; [|intros [= _ <-]; by left].
    destruct (is_valid _); [|intros [= _ <-]; by left].
    destruct (cleaned_data _ !! "password1") as [[password| | |]|];
      try (intros [= _ <-]; by left).
    unfold save_user, update_session_auth_hash. run.
    destruct (is_user _ _); run; intros [= _ <-]; right; by exists password. }
  destruct Hcase as [->|(raw & H1 & H2 & H3 & H4)].
  - repeat split; try done. by left.
  - repeat split; try done.
    + intros k Hk. rewrite H4. by rewrite lookup_insert_ne.
    + right. by exists raw.
    + unfold viewer_in_store. rewrite Hu. intros Hv.
      by eapply unique_usernames_set_password.
Qed.

(** X20. The password form on submitted data is valid exactly when both
    fields are present and, stripped, are the same non-empty string without
    a null character.  Its own error, that the passwords do not match, is
    raised exactly when both fields clean and their cleaned values differ;
    a field that fails gives only the error of that field. *)
Theorem PasswordChangeForm_valid_iff (w : World) (data : gmap string string) :
  (is_valid (PasswordChangeForm w (Some data)) = true
   ↔ ∃ p1 p2, data !! "password1" = Some p1 ∧ data !! "password2" = Some p2
       ∧ strip p1 = strip p2 ∧ strip p1 ≠ "" ∧ has_null (strip p1) = false)
  ∧ (("__all__", "Passwords don't match")
       ∈ errors (PasswordChangeForm w (Some data))
     ↔ ∃ a b, CharField_clean (data !! "password1") = inr (VStr a)
         ∧ CharField_clean (data !! "password2") = inr (VStr b) ∧ a ≠ b).
Proof.
  split.
  - split.
    + intros Hv.
      destruct (CharField_clean_cases (data !! "password1")) as [[m H1]|[a H1]].
      { rewrite PasswordChangeForm_invalid in Hv; [done|].
        intros a Ha. congruence. }
      destruct (CharField_clean_cases (data !! "password2")) as [[m H2]|[b H2]].
      { rewrite PasswordChangeForm_invalid in Hv; [done|].
        intros a' Ha. congruence. }
      destruct (decide (a = b)) as [<-|Hne].
      * apply CharField_clean_inr in H1 as (p1 & E1 & [= ->] & Hn1 & Hz1).
        apply CharField_clean_inr in H2 as (p2 & E2 & [= Heq] & _).
        exists p1, p2. auto.
      * rewrite PasswordChangeForm_invalid in Hv; [done|].
        intros a' Ha. congruence.
    + intros (p1 & p2 & E1 & E2 & Heq & Hne & Hz).
      apply (PasswordChangeForm_valid w data (strip p1)).
      * rewrite E1. apply CharField_clean_inr. eauto.
      * rewrite E2. apply CharField_clean_inr. exists p2. rewrite <- Heq. eauto.
  - unfold PasswordChangeForm, full_clean. simpl.
    destruct (CharField_clean_cases (data !! "password1")) as [[m1 H1]|[a H1]];
      destruct (CharField_clean_cases (data !! "password2")) as [[m2 H2]|[b H2]];
      rewrite H1, H2; simpl; unfold PasswordChangeForm_clean;
      repeat (rewrite lookup_insert_eq || rewrite lookup_insert_ne by done
              || rewrite lookup_empty); simpl.
    + split.
      * intros [[=]|[[=]|[]%elem_of_nil]%elem_of_cons]%elem_of_cons.
      * intros (? & ? & [=] & _).
    + split.
      * intros [[=]|[]%elem_of_nil]%elem_of_cons.
      * intros (? & ? & [=] & _).
    + rewrite andb_false_r. simpl. split.
      * intros [[=]|[]%elem_of_nil]%elem_of_cons.
      * intros (? & ? & _ & [=] & _).
    + apply CharField_clean_inr in H1 as (p1 & E1 & [= ->] & Hn1 & Hz1).
      apply CharField_clean_inr in H2 as (p2 & E2 & [= ->] & Hn2 & Hz2).
      apply String.eqb_neq in Hn1 as ->. apply String.eqb_neq in Hn2 as ->.
      simpl. case_bool_decide as Hd; simpl.
      * split; [|intros _; left]. intros _.
        exists (strip p1), (strip p2). split; [done|]. split; [done|].
        congruence.
      * split; [intros []%elem_of_nil|].
        intros (a & b & [= <-] & [= <-] & Hne). exfalso. apply Hne. congruence.
Qed.

(** ** The handlers one after the other *)

(** X21. A comment stored by [add_comment] is shown by the detail page of
    its post: after the submission, a GET of the detail page of the post,
    by a viewer who may see the post, lists the new comment with the
    stripped text and the submitting viewer as author. *)
Theorem added_comment_is_shown
    (request request' : Request) (post_id : nat) (w : World)
    (u : Obj User.t) (p : Post.t) (text : string) :
  user request = Some u →
  posts w !! post_id = Some p →
  CharField_clean (POST request !! "text") = inr (VStr text) →
  method request' = "GET" →
  is_user (user request') (Post.author p) = true
  ∨ (Post.is_published p = true
     ∧ ∃ c, categories w !! Post.category p = Some c
            ∧ Category.is_published c = true) →
  ∃ cs,
    PostDetailView py_int request' post_id
      (add_comment py_int request post_id w).2
    = (Return (render "blog/detail.html"
                 [("object", VPost (post_id, p)); ("post", VPost (post_id, p));
                  ("form", VForm (unbound_form ∅));
                  ("comments", VComments cs)]),
       (add_comment py_int request post_id w).2)
    ∧ (next_pk (comments w), Comment.Build text (pk u) post_id (now w)) ∈ cs.
Proof.
  intros Hu Hp Ht Hm Hsee.
  destruct (add_comment_run request post_id w u p text Hu Hp Ht) as [-> _].
  destruct (PostDetailView_get_run request' post_id
              (set_comments
                 (λ t, <[next_pk (comments w)
                         := Comment.Build text (pk u) post_id (now w)]> t) w)
              p Hm Hp Hsee) as (cs & Hrun & Hcs).
  exists cs. split; [exact Hrun|].
  apply Hcs. split; [|done]. simpl. by rewrite lookup_insert_eq.
Qed.

(** X22. A post stored by the post creation with the published flag set, a
    published category and a publish date not after the current time is in
    the listing of the index afterwards, for every request. *)
Theorem created_post_is_listed
    (request request' : Request) (w : World) (u : Obj User.t)
    (title body : string) (pub_date : Z) (category : nat) (c : Category.t) :
  user request = Some u →
  method request = "POST" →
  CharField_clean (POST request !! "title") = inr (VStr title) →
  CharField_clean (POST request !! "body") = inr (VStr body) →
  clean (DateTimeField parse_datetime) w (POST request !! "pub_date")
  = inr (VDateTime pub_date) →
  BooleanField_clean (POST request !! "is_published") = inr (VBool true) →
  clean (ModelChoiceField py_int categories) w (POST request !! "category")
  = inr (VRef category) →
  categories w !! category = Some c →
  Category.is_published c = true →
  pub_date ≤ now w →
  ∃ pg,
    index py_int request'
      (PostCreateView py_int parse_datetime request w).2
    = (Return (render "blog/index.html" [("page_obj", VPage pg)]),
       (PostCreateView py_int parse_datetime request w).2)
    ∧ (next_pk (posts w), Post.Build title body pub_date true (pk u) category)
      ∈ object_list (Page.paginator pg).
Proof.
  intros Hu Hm Ht Hb Hd Hp Hc Hcat Hcp Hle.
  destruct (PostCreateView_post_run py_int parse_datetime request w u title
              body pub_date true category Hu Hm Ht Hb Hd Hp Hc) as [-> _].
  simpl.
  destruct (index_render request'
              (set_posts
                 (λ t, <[next_pk (posts w)
                         := Post.Build title body pub_date true (pk u) category]> t)
                 w)) as (pg & Hrun & Hl & _).
  exists pg. split; [exact Hrun|].
  destruct Hl as (-> & _). apply index_listed. split.
  - simpl. by rewrite lookup_insert_eq.
  - split; [done|]. split; [|done]. exists c. done.
Qed.

(** X23. After the author's POST to [delete_comment] no comment has the id
    of the request, and the detail page of a post no longer lists it. *)
Theorem deleted_comment_is_gone
    (request request' : Request) (post_id comment_id post_id' : nat)
    (w : World) (u : Obj User.t) (c : Comment.t) (p : Post.t) :
  user request = Some u →
  method request = "POST" →
  comments w !! comment_id = Some c →
  Comment.author c = pk u →
  method request' = "GET" →
  posts w !! post_id' = Some p →
  is_user (user request') (Post.author p) = true
  ∨ (Post.is_published p = true
     ∧ ∃ c, categories w !! Post.category p = Some c
            ∧ Category.is_published c = true) →
  comments (delete_comment request post_id comment_id w).2 !! comment_id = None
  ∧ ∃ cs,
      PostDetailView py_int request' post_id'
        (delete_comment request post_id comment_id w).2
      = (Return (render "blog/detail.html"
                   [("object", VPost (post_id', p)); ("post", VPost (post_id', p));
                    ("form", VForm (unbound_form ∅));
                    ("comments", VComments cs)]),
         (delete_comment request post_id comment_id w).2)
      ∧ ∀ c', (comment_id, c') ∉ cs.
Proof.
  intros Hu Hm Hc Ha Hm' Hp Hsee.
  assert (Hrun : (delete_comment request post_id comment_id w).2
                 = set_comments (λ t, delete comment_id t) w).
  { unfold delete_comment. run. rewrite Hu. simpl.
    rewrite (get_by_pk_Some _ _ _ Hc). simpl.
    rewrite is_user_true_eq by done. simpl.
    apply String.eqb_eq in Hm. by rewrite Hm. }
  rewrite Hrun. split; [apply lookup_delete_eq|].
  destruct (PostDetailView_get_run request' post_id'
              (set_comments (λ t, delete comment_id t) w) p Hm' Hp Hsee)
    as (cs & Hdet & Hcs).
  exists cs. split; [exact Hdet|].
  intros c' [Hin _]%Hcs. simpl in Hin. by rewrite lookup_delete_eq in Hin.
Qed.

End Coverage.

(** * The further properties on the small site *)

Lemma index_visible_post_on_a_page_witness :
  ∃ n, 1 ≤ n
    ∧ ∀ request, GET request !! "page" ≫= decimal_int = Some n →
        ∃ pg,
          index decimal_int request site
          = (Return (render "blog/index.html" [("page_obj", VPage pg)]), site)
          ∧ Page.number pg = n
          ∧ (1%nat, Post.Build "first" "text" 10 true 1 1) ∈ Page.object_list pg.
Proof.
  apply (index_visible_post_on_a_page decimal_int site
           (1%nat, Post.Build "first" "text" 10 true 1 1)).
  - vm_compute. reflexivity.
  - split; [reflexivity|]. split; [|vm_compute; discriminate].
    eexists. split; vm_compute; reflexivity.
Defined.

Lemma index_page_not_empty_witness :
  ∃ pg,
    index decimal_int (request_of None "GET" [("page", "7")] []) site
    = (Return (render "blog/index.html" [("page_obj", VPage pg)]), site)
    ∧ Page.object_list pg ≠ [].
Proof.
  apply (index_page_not_empty decimal_int
           (request_of None "GET" [("page", "7")] []) site
           (1%nat, Post.Build "first" "text" 10 true 1 1)).
  - vm_compute. reflexivity.
  - split; [reflexivity|]. split; [|vm_compute; discriminate].
    eexists. split; vm_compute; reflexivity.
Defined.

Lemma category_posts_listing_witness :
  ∃ pg,
    category_posts decimal_int (request_of None "GET" [] []) "news" site
    = (Return (render "blog/category.html"
                 [("category", VCategory (1%nat, Category.Build "news" true));
                  ("page_obj", VPage pg)]), site)
    ∧ ∀ p, p ∈ Page.object_list pg → visible_in site p.
Proof.
  destruct (category_posts_listing decimal_int (request_of None "GET" [] [])
              "news" site (1%nat, Category.Build "news" true))
    as (pg & H1 & _ & _ & H2).
  - vm_compute. reflexivity.
  - reflexivity.
  - reflexivity.
  - intros k c Hk Hs Hp. apply elem_of_map_to_list in Hk.
    let l := eval vm_compute in (map_to_list (categories site)) in
    change (map_to_list (categories site)) with l in Hk.
    apply elem_of_cons in Hk as [Hk|Hk]; [by injection Hk as -> ->|].
    apply elem_of_cons in Hk as [Hk|Hk]; [by injection Hk as -> ->|].
    by apply elem_of_nil in Hk.
  - exists pg. split; [exact H1|exact H2].
Defined.

Lemma PostDetailView_not_found_iff_witness :
  (PostDetailView_get_object (request_of (Some (2%nat, bob)) "GET" [] []) 3 site).1
  = Raise Http404.
Proof.
  destruct (PostDetailView_not_found_iff
              (request_of (Some (2%nat, bob)) "GET" [] []) 3%nat site)
    as [[_ H] _].
  - intros p Hp. vm_compute in Hp. injection Hp as <-.
    eexists. vm_compute. reflexivity.
  - apply H. right.
    exists (Post.Build "hidden" "text" 20 false 1 1), (Category.Build "news" true).
    split; [vm_compute; reflexivity|]. split; [vm_compute; reflexivity|].
    split; [vm_compute; reflexivity|]. left. reflexivity.
Defined.

Lemma PostDetailView_renders_witness :
  ∃ cs,
    PostDetailView decimal_int (request_of (Some (1%nat, alice)) "GET" [] []) 3 site
    = (Return (render "blog/detail.html"
                 [("object", VPost (3%nat, Post.Build "hidden" "text" 20 false 1 1));
                  ("post", VPost (3%nat, Post.Build "hidden" "text" 20 false 1 1));
                  ("form", VForm (unbound_form ∅));
                  ("comments", VComments cs)]), site)
    ∧ ∀ c, c ∈ cs ↔ comments site !! pk c = Some (row c)
                     ∧ Comment.post (row c) = 3%nat.
Proof.
  apply (PostDetailView_renders decimal_int
           (request_of (Some (1%nat, alice)) "GET" [] []) 3%nat site
           (Post.Build "hidden" "text" 20 false 1 1)).
  - reflexivity.
  - vm_compute. reflexivity.
  - left. vm_compute. reflexivity.
Defined.

Lemma anonymous_sent_to_login_witness :
  delete_post CASCADE (request_of None "POST" [] []) 1 site
  = (Return (redirect LOGIN_URL), site)
  ∧ add_comment decimal_int (request_of None "POST" [] []) 1 site
    = (Return (redirect LOGIN_URL), site).
Proof.
  destruct (anonymous_sent_to_login decimal_int day_datetime CASCADE
              (request_of None "POST" [] []) "alice" 1%nat 1%nat site)
    as (_ & _ & H1 & H2 & _).
  - reflexivity.
  - split; [exact H1|exact H2].
Defined.

Lemma add_comment_stores_comment_witness :
  add_comment decimal_int
    (request_of (Some (2%nat, bob)) "POST" [] [("text", " nice ")]) 3 site
  = (Return (redirect (blog_post_detail 3)),
     set_comments (λ t, <[3%nat := Comment.Build "nice" 2 3 100]> t) site).
Proof.
  apply (add_comment_stores_comment decimal_int
           (request_of (Some (2%nat, bob)) "POST" [] [("text", " nice ")])
           3%nat site (2%nat, bob) (Post.Build "hidden" "text" 20 false 1 1) "nice").
  - reflexivity.
  - vm_compute. reflexivity.
  - vm_compute. reflexivity.
Defined.

Lemma add_comment_without_valid_text_witness :
  ∃ form cs,
    add_comment decimal_int (request_of (Some (2%nat, bob)) "GET" [] []) 3 site
    = (Return (render "blog/detail.html"
                 [("post", VPost (3%nat, Post.Build "hidden" "text" 20 false 1 1));
                  ("form", VForm form); ("comments", VComments cs)]), site)
    ∧ is_valid form = false.
Proof.
  destruct (add_comment_without_valid_text decimal_int
              (request_of (Some (2%nat, bob)) "GET" [] []) 3%nat site (2%nat, bob))
    as [_ H].
  - reflexivity.
  - destruct (H (Post.Build "hidden" "text" 20 false 1 1))
      as (form & cs & H1 & H2 & _).
    + vm_compute. reflexivity.
    + intros text. vm_compute. discriminate.
    + exists form, cs. split; [exact H1|exact H2].
Defined.

Lemma edit_comment_reads_text_only_witness :
  edit_comment decimal_int
    (request_of (Some (2%nat, bob)) "POST" []
       [("text", "changed"); ("author", "1"); ("post", "4")]) 1 1 site
  = edit_comment decimal_int
      (request_of (Some (2%nat, bob)) "POST" [] [("text", "changed")]) 1 1 site.
Proof.
  apply (edit_comment_reads_text_only decimal_int
           (request_of (Some (2%nat, bob)) "POST" [] [("text", "changed")])
           (request_of (Some (2%nat, bob)) "POST" []
              [("text", "changed"); ("author", "1"); ("post", "4")])
           1%nat 1%nat site).
  - reflexivity.
  - reflexivity.
  - vm_compute. reflexivity.
Defined.

Lemma edit_comment_shows_form_witness :
  ∃ form,
    edit_comment decimal_int
      (request_of (Some (2%nat, bob)) "POST" [] [("text", "  ")]) 1 1 site
    = (Return (render "blog/comment.html"
                 [("form", VForm form);
                  ("comment", VComment (1%nat, Comment.Build "hello" 2 1 50));
                  ("is_edit", VTrue)]), site)
    ∧ is_valid form = false.
Proof.
  apply (edit_comment_shows_form decimal_int
           (request_of (Some (2%nat, bob)) "POST" [] [("text", "  ")])
           1%nat 1%nat site (2%nat, bob) (Comment.Build "hello" 2 1 50)).
  - reflexivity.
  - vm_compute. reflexivity.
  - reflexivity.
  - right. intros text. vm_compute. discriminate.
Defined.

Lemma PostCreateView_valid_submission_stored_witness :
  PostCreateView decimal_int day_datetime
    (request_of (Some (2%nat, bob)) "POST" []
       [("title", " t "); ("body", "b"); ("pub_date", "1970-01-01 00:00:07");
        ("is_published", "on"); ("author", "1"); ("category", "1")]) site
  = (Return (redirect (blog_profile "bob")),
     set_posts (λ t, <[5%nat := Post.Build "t" "b" 7 true 2 1]> t) site).
Proof.
  apply (PostCreateView_valid_submission_stored decimal_int day_datetime
           (request_of (Some (2%nat, bob)) "POST" []
              [("title", " t "); ("body", "b"); ("pub_date", "1970-01-01 00:00:07");
               ("is_published", "on"); ("author", "1"); ("category", "1")])
           site (2%nat, bob) "t" "b" 7 true 1%nat).
  - reflexivity.
  - reflexivity.
  - vm_compute. reflexivity.
  - vm_compute. reflexivity.
  - vm_compute. reflexivity.
  - vm_compute. reflexivity.
  - vm_compute. reflexivity.
Defined.

Lemma PostCreateView_invalid_submission_witness :
  ∃ form,
    PostCreateView decimal_int day_datetime
      (request_of (Some (2%nat, bob)) "POST" []
         [("title", "t"); ("body", "b"); ("pub_date", "1970-01-01 00:00:07"); ("category", "9")])
      site
    = (Return (render "blog/create.html" [("form", VForm form)]), site)
    ∧ is_valid form = false.
Proof.
  apply (PostCreateView_invalid_submission decimal_int day_datetime
           (request_of (Some (2%nat, bob)) "POST" []
              [("title", "t"); ("body", "b"); ("pub_date", "1970-01-01 00:00:07"); ("category", "9")])
           site (2%nat, bob) "category" (ModelChoiceField decimal_int categories)
           "Select a valid choice.").
  - reflexivity.
  - reflexivity.
  - do 4 right. left.
  - vm_compute. reflexivity.
Defined.

Lemma password_change_view_frame_witness :
  users (password_change_view
           (request_of (Some (2%nat, bob)) "POST" []
              [("password1", "abc"); ("password2", "abc")]) "alice" site).2
    !! 1%nat = Some alice
  ∧ unique_usernames
      (password_change_view
         (request_of (Some (2%nat, bob)) "POST" []
            [("password1", "abc"); ("password2", "abc")]) "alice" site).2.
Proof.
  destruct (password_change_view_frame
              (request_of (Some (2%nat, bob)) "POST" []
                 [("password1", "abc"); ("password2", "abc")])
              "alice" site (2%nat, bob)
              (password_change_view
                 (request_of (Some (2%nat, bob)) "POST" []
                    [("password1", "abc"); ("password2", "abc")]) "alice" site).1
              (password_change_view
                 (request_of (Some (2%nat, bob)) "POST" []
                    [("password1", "abc"); ("password2", "abc")]) "alice" site).2)
    as (_ & _ & _ & H1 & _ & H2 & _).
  - reflexivity.
  - apply surjective_pairing.
  - split.
    + rewrite H1; [vm_compute; reflexivity|vm_compute; discriminate].
    + apply H2.
      * vm_compute. reflexivity.
      * apply (bool_decide_unpack _). vm_compute. exact I.
Defined.

Lemma added_comment_is_shown_witness :
  ∃ cs,
    PostDetailView decimal_int (request_of None "GET" [] []) 1
      (add_comment decimal_int
         (request_of (Some (2%nat, bob)) "POST" [] [("text", " nice ")]) 1 site).2
    = (Return (render "blog/detail.html"
                 [("object", VPost (1%nat, Post.Build "first" "text" 10 true 1 1));
                  ("post", VPost (1%nat, Post.Build "first" "text" 10 true 1 1));
                  ("form", VForm (unbound_form ∅));
                  ("comments", VComments cs)]),
       (add_comment decimal_int
          (request_of (Some (2%nat, bob)) "POST" [] [("text", " nice ")]) 1 site).2)
    ∧ (3%nat, Comment.Build "nice" 2 1 100) ∈ cs.
Proof.
  apply (added_comment_is_shown decimal_int
           (request_of (Some (2%nat, bob)) "POST" [] [("text", " nice ")])
           (request_of None "GET" [] []) 1%nat site (2%nat, bob)
           (Post.Build "first" "text" 10 true 1 1) "nice").
  - reflexivity.
  - vm_compute. reflexivity.
  - vm_compute. reflexivity.
  - reflexivity.
  - right. split; [reflexivity|]. eexists. split; vm_compute; reflexivity.
Defined.

Lemma created_post_is_listed_witness :
  ∃ pg,
    index decimal_int (request_of None "GET" [] [])
      (PostCreateView decimal_int day_datetime
         (request_of (Some (2%nat, bob)) "POST" []
            [("title", "t"); ("body", "b"); ("pub_date", "1970-01-01 00:00:07");
             ("is_published", "on"); ("category", "1")]) site).2
    = (Return (render "blog/index.html" [("page_obj", VPage pg)]),
       (PostCreateView decimal_int day_datetime
          (request_of (Some (2%nat, bob)) "POST" []
             [("title", "t"); ("body", "b"); ("pub_date", "1970-01-01 00:00:07");
              ("is_published", "on"); ("category", "1")]) site).2)
    ∧ (5%nat, Post.Build "t" "b" 7 true 2 1) ∈ object_list (Page.paginator pg).
Proof.
  apply (created_post_is_listed decimal_int day_datetime
           (request_of (Some (2%nat, bob)) "POST" []
              [("title", "t"); ("body", "b"); ("pub_date", "1970-01-01 00:00:07");
               ("is_published", "on"); ("category", "1")])
           (request_of None "GET" [] []) site (2%nat, bob) "t" "b" 7 1%nat
           (Category.Build "news" true)).
  - reflexivity.
  - reflexivity.
  - vm_compute. reflexivity.
  - vm_compute. reflexivity.
  - vm_compute. reflexivity.
  - vm_compute. reflexivity.
  - vm_compute. reflexivity.
  - vm_compute. reflexivity.
  - reflexivity.
  - vm_compute. discriminate.
Defined.

Lemma deleted_comment_is_gone_witness :
  comments (delete_comment (request_of (Some (2%nat, bob)) "POST" [] []) 1 1 site).2
    !! 1%nat = None
  ∧ ∃ cs,
      PostDetailView decimal_int (request_of None "GET" [] []) 1
        (delete_comment (request_of (Some (2%nat, bob)) "POST" [] []) 1 1 site).2
      = (Return (render "blog/detail.html"
                   [("object", VPost (1%nat, Post.Build "first" "text" 10 true 1 1));
                    ("post", VPost (1%nat, Post.Build "first" "text" 10 true 1 1));
                    ("form", VForm (unbound_form ∅));
                    ("comments", VComments cs)]),
         (delete_comment (request_of (Some (2%nat, bob)) "POST" [] []) 1 1 site).2)
      ∧ ∀ c', (1%nat, c') ∉ cs.
Proof.
  apply (deleted_comment_is_gone decimal_int
           (request_of (Some (2%nat, bob)) "POST" [] [])
           (request_of None "GET" [] []) 1%nat 1%nat 1%nat site (2%nat, bob)
           (Comment.Build "hello" 2 1 50) (Post.Build "first" "text" 10 true 1 1)).
  - reflexivity.
  - reflexivity.
  - vm_compute. reflexivity.
  - reflexivity.
  - reflexivity.
  - vm_compute. reflexivity.
  - right. split; [reflexivity|]. eexists. split; vm_compute; reflexivity.
Defined.
